(** * cluster2.py: the clustering demo of data-science-apps/bokeh-scikit-learn

    The script is glue over three external libraries: numpy/scipy, scikit-learn
    and bokeh.  Their operations are the fields of the class [Library] below;
    the script's own code (the palette lookup, [clustering], [get_dataset] and
    the four callbacks) is embedded over that interface, in a state-and-exception
    monad over the interpreter's globals. *)

From Stdlib Require Import ZArith QArith.
From stdpp Require Import gmap strings list.

Local Open Scope Z_scope.

(** ** Values *)

(** What a call can raise.  [IndexError] is numpy's out-of-bounds index,
    [ValueError] scipy's shape mismatch; everything the numerical routines
    raise on their own is a [LibraryError]. *)
Inductive exception : Type :=
| IndexError
| ValueError
| LibraryError (msg : string).

Inductive result (A : Type) : Type :=
| Ok (a : A)
| Raise (e : exception).
Arguments Ok {A} a.
Arguments Raise {A} e.

Definition is_Ok {A : Type} (r : result A) : bool :=
  match r with
  | Ok _ => true
  | Raise _ => false
  end.

(** A numpy float is recorded by the rational it denotes. The script does no
    arithmetic on coordinates: it only hands them to the library and back. *)
Abbreviation float := Q.

(** An [n]x2 array of coordinates, one row per sample. *)
Definition PointSet : Type := list (float * float).

(** [X[:, 0]] and [X[:, 1]] *)
Definition column0 (X : PointSet) : list float := fst <$> X.
Definition column1 (X : PointSet) : list float := snd <$> X.

(** A scipy sparse matrix: its shape and its stored entries. *)
Record csr_matrix : Type := {
  shape : nat * nat;
  data : gmap (nat * nat) float }.

Definition entry (A : csr_matrix) (i j : nat) : float :=
  default 0%Q (data A !! (i, j)).

(** [A.T] *)
Definition transpose (A : csr_matrix) : csr_matrix :=
  {| shape := prod_swap (shape A); data := kmap prod_swap (data A) |}.

(** [A + B]; scipy refuses operands of different shapes. *)
Definition sparse_add (A B : csr_matrix) : result csr_matrix :=
  if decide (shape A = shape B)
  then Ok {| shape := shape A;
             data := union_with (fun a b => Some (a + b)%Q) (data A) (data B) |}
  else Raise ValueError.

(** [c * A] *)
Definition sparse_scale (c : float) (A : csr_matrix) : csr_matrix :=
  {| shape := shape A; data := Qmult c <$> data A |}.

(** [a[i]] on a one-dimensional numpy array: an index in [-len, len) is
    accepted, a negative one counting from the end. *)
Definition getitem {A : Type} (a : list A) (i : Z) : result A :=
  let n := Z.of_nat (length a) in
  if decide (- n <= i < n) then
    match a !! Z.to_nat (if decide (i < 0) then i + n else i) with
    | Some x => Ok x
    | None => Raise IndexError
    end
  else Raise IndexError.

(** [[f(i) for i in l]]: left to right, the first exception ends it. *)
Fixpoint comprehension {A B : Type} (f : A -> result B) (l : list A)
  : result (list B) :=
  match l with
  | [] => Ok []
  | i :: l' =>
      match f i with
      | Raise e => Raise e
      | Ok c =>
          match comprehension f l' with
          | Raise e => Raise e
          | Ok cs => Ok (c :: cs)
          end
      end
  end.

(** [int(v)] on a finite float: truncation towards zero. *)
Definition int (v : float) : Z := Z.quot (Qnum v) (Z.pos (Qden v)).

(** ** Estimators *)

(** The estimator objects the script constructs, with the keyword arguments it
    passes; an argument the script leaves out is not recorded (the library's
    default applies). The two agglomerative branches differ in [linkage] and
    in whether [affinity] is passed. *)
Inductive Estimator : Type :=
| MiniBatchKMeans (n_clusters : Z)
| AffinityPropagation (damping preference : float)
| MeanShift (bandwidth : float) (bin_seeding : bool)
| SpectralClustering (n_clusters : Z) (eigen_solver affinity : string)
| AgglomerativeClustering (n_clusters : Z) (linkage : string)
    (affinity : option string) (connectivity : csr_matrix)
| Birch (n_clusters : Z)
| DBSCAN (eps : float).

(** An estimator after [fit]: [labels_] is [None] when the object has no such
    attribute. *)
Record Fitted : Type := {
  labels_ : option (list Z);
  predict : PointSet -> result (list Z) }.

(** ** The external libraries *)

Class Library : Type := {
  (** numpy's global random generator *)
  RandomState : Type;
  random_seed : Z -> RandomState;
  (** [np.random.rand(n, 2)] *)
  random_rand2 : Z -> RandomState -> result PointSet * RandomState;
  (** [datasets.make_circles(n_samples, factor, noise)] *)
  make_circles :
    Z -> float -> float -> RandomState -> result (PointSet * list Z) * RandomState;
  (** [datasets.make_moons(n_samples, noise)] *)
  make_moons :
    Z -> float -> RandomState -> result (PointSet * list Z) * RandomState;
  (** [datasets.make_blobs(n_samples, random_state)]: seeded by its argument *)
  make_blobs : Z -> Z -> result (PointSet * list Z);
  (** [StandardScaler().fit_transform(X)] *)
  fit_transform : PointSet -> result PointSet;
  (** [cluster.estimate_bandwidth(X, quantile)] *)
  estimate_bandwidth : PointSet -> float -> result float;
  (** [kneighbors_graph(X, n_neighbors, include_self)] *)
  kneighbors_graph : PointSet -> Z -> bool -> result csr_matrix;
  (** [model.fit(X)] *)
  fit : Estimator -> PointSet -> RandomState -> result Fitted * RandomState;
  (** [bokeh.palettes.Spectral6] *)
  Spectral6 : list string }.

(** What the script relies on from the libraries. *)
Class LibraryContract (L : Library) : Prop := {
  Spectral6_length : length Spectral6 = 6%nat;
  random_rand2_rows : forall (n : nat) r,
    exists X r', random_rand2 (Z.of_nat n) r = (Ok X, r') /\ length X = n;
  make_circles_rows : forall (n : nat) factor noise r,
    exists X y r', make_circles (Z.of_nat n) factor noise r = (Ok (X, y), r')
                   /\ length X = n /\ length y = n;
  make_moons_rows : forall (n : nat) noise r,
    exists X y r', make_moons (Z.of_nat n) noise r = (Ok (X, y), r')
                   /\ length X = n /\ length y = n;
  make_blobs_rows : forall (n : nat) random_state,
    exists X y, make_blobs (Z.of_nat n) random_state = Ok (X, y)
                /\ length X = n /\ length y = n;
  fit_transform_rows : forall X X',
    fit_transform X = Ok X' -> length X' = length X;
  labels_rows : forall m X r F r' l,
    fit m X r = (Ok F, r') -> labels_ F = Some l -> length l = length X;
  predict_rows : forall m X r F r' X' l,
    fit m X r = (Ok F, r') -> predict F X' = Ok l -> length l = length X' }.

(** A column of the plot's data source. *)
Inductive column : Type :=
| Floats (v : list float)
| Strings (v : list string).

(** lines 46-50: the names offered by the two drop-downs *)
Definition clustering_algorithms : list string :=
  ["MiniBatchKMeans"; "AffinityPropagation"; "MeanShift";
   "SpectralClustering"; "Ward"; "AgglomerativeClustering"; "DBSCAN"; "Birch"].

Definition datasets_names : list string :=
  ["Noisy Circles"; "Noisy Moons"; "Blobs"; "No Structure"].

(** [len] of a column *)
Definition column_length (c : column) : nat :=
  match c with
  | Floats v => length v
  | Strings v => length v
  end.

Section Script.
Context {L : Library}.

(** ** The interpreter's state

    The module's globals that the callbacks read or rebind ([X], [y],
    [source.data], [plot.title], the four widgets' values), numpy's global
    generator and what has been printed. *)
Record process : Type := {
  global_X : PointSet;
  global_y : option (list Z);
  source_data : gmap string column;
  plot_title : option string;
  algorithm_select_value : string;
  dataset_select_value : string;
  samples_slider_value : float;
  clusters_slider_value : float;
  random_state : RandomState;
  stdout : list string }.

Definition set_global_X (v : PointSet) (s : process) : process :=
  {| global_X := v; global_y := global_y s; source_data := source_data s;
     plot_title := plot_title s;
     algorithm_select_value := algorithm_select_value s;
     dataset_select_value := dataset_select_value s;
     samples_slider_value := samples_slider_value s;
     clusters_slider_value := clusters_slider_value s;
     random_state := random_state s; stdout := stdout s |}.

Definition set_global_y (v : option (list Z)) (s : process) : process :=
  {| global_X := global_X s; global_y := v; source_data := source_data s;
     plot_title := plot_title s;
     algorithm_select_value := algorithm_select_value s;
     dataset_select_value := dataset_select_value s;
     samples_slider_value := samples_slider_value s;
     clusters_slider_value := clusters_slider_value s;
     random_state := random_state s; stdout := stdout s |}.

Definition set_source_data (v : gmap string column) (s : process) : process :=
  {| global_X := global_X s; global_y := global_y s; source_data := v;
     plot_title := plot_title s;
     algorithm_select_value := algorithm_select_value s;
     dataset_select_value := dataset_select_value s;
     samples_slider_value := samples_slider_value s;
     clusters_slider_value := clusters_slider_value s;
     random_state := random_state s; stdout := stdout s |}.

Definition set_plot_title (v : option string) (s : process) : process :=
  {| global_X := global_X s; global_y := global_y s;
     source_data := source_data s; plot_title := v;
     algorithm_select_value := algorithm_select_value s;
     dataset_select_value := dataset_select_value s;
     samples_slider_value := samples_slider_value s;
     clusters_slider_value := clusters_slider_value s;
     random_state := random_state s; stdout := stdout s |}.

Definition set_algorithm_select_value (v : string) (s : process) : process :=
  {| global_X := global_X s; global_y := global_y s;
     source_data := source_data s; plot_title := plot_title s;
     algorithm_select_value := v;
     dataset_select_value := dataset_select_value s;
     samples_slider_value := samples_slider_value s;
     clusters_slider_value := clusters_slider_value s;
     random_state := random_state s; stdout := stdout s |}.

Definition set_dataset_select_value (v : string) (s : process) : process :=
  {| global_X := global_X s; global_y := global_y s;
     source_data := source_data s; plot_title := plot_title s;
     algorithm_select_value := algorithm_select_value s;
     dataset_select_value := v;
     samples_slider_value := samples_slider_value s;
     clusters_slider_value := clusters_slider_value s;
     random_state := random_state s; stdout := stdout s |}.

Definition set_samples_slider_value (v : float) (s : process) : process :=
  {| global_X := global_X s; global_y := global_y s;
     source_data := source_data s; plot_title := plot_title s;
     algorithm_select_value := algorithm_select_value s;
     dataset_select_value := dataset_select_value s;
     samples_slider_value := v;
     clusters_slider_value := clusters_slider_value s;
     random_state := random_state s; stdout := stdout s |}.

Definition set_clusters_slider_value (v : float) (s : process) : process :=
  {| global_X := global_X s; global_y := global_y s;
     source_data := source_data s; plot_title := plot_title s;
     algorithm_select_value := algorithm_select_value s;
     dataset_select_value := dataset_select_value s;
     samples_slider_value := samples_slider_value s;
     clusters_slider_value := v;
     random_state := random_state s; stdout := stdout s |}.

Definition set_random_state (v : RandomState) (s : process) : process :=
  {| global_X := global_X s; global_y := global_y s;
     source_data := source_data s; plot_title := plot_title s;
     algorithm_select_value := algorithm_select_value s;
     dataset_select_value := dataset_select_value s;
     samples_slider_value := samples_slider_value s;
     clusters_slider_value := clusters_slider_value s;
     random_state := v; stdout := stdout s |}.

Definition set_stdout (v : list string) (s : process) : process :=
  {| global_X := global_X s; global_y := global_y s;
     source_data := source_data s; plot_title := plot_title s;
     algorithm_select_value := algorithm_select_value s;
     dataset_select_value := dataset_select_value s;
     samples_slider_value := samples_slider_value s;
     clusters_slider_value := clusters_slider_value s;
     random_state := random_state s; stdout := v |}.

(** ** Statements: state plus exceptions

    A statement maps the state to its outcome and the state it leaves; what
    was assigned before an exception stays assigned. *)
Definition Py (A : Type) : Type := process -> result A * process.

Definition ret {A : Type} (a : A) : Py A := fun s => (Ok a, s).

Definition bind {A B : Type} (m : Py A) (k : A -> Py B) : Py B :=
  fun s =>
    match m s with
    | (Ok a, s') => k a s'
    | (Raise e, s') => (Raise e, s')
    end.

#[export] Instance Py_ret : MRet Py := @ret.
#[export] Instance Py_bind : MBind Py := fun A B k m => bind m k.

(** reading a global, and an assignment *)
Definition gets {A : Type} (f : process -> A) : Py A := fun s => (Ok (f s), s).
Definition modify (f : process -> process) : Py unit := fun s => (Ok tt, f s).

(** a library call that does not draw random numbers *)
Definition call {A : Type} (r : result A) : Py A := fun s => (r, s).

(** a library call on numpy's global generator *)
Definition call_random {A : Type}
    (f : RandomState -> result A * RandomState) : Py A :=
  fun s => let (r, g) := f (random_state s) in (r, set_random_state g s).

Definition print (line : string) : Py unit :=
  modify (fun s => set_stdout (stdout s ++ [line]) s).

(** [source.data[key] = v] *)
Definition source_data_setitem (key : string) (v : column) : Py unit :=
  modify (fun s => set_source_data (<[key := v]> (source_data s)) s).

(** ** Line 30: the palette *)

(** [spectral = np.hstack([Spectral6] * 20)] *)
Definition spectral : list string := concat (replicate 20 Spectral6).

(** [[spectral[i] for i in y_pred]], lines 31, 124, 145, 159 and 172 *)
Definition recolor (y_pred : list Z) : result (list string) :=
  comprehension (getitem spectral) y_pred.

(** ** Lines 59-100: [clustering] *)

(** lines 61-67: what is computed from [X] before the estimator is chosen *)
Definition prepare (X : PointSet) : Py (PointSet * float * csr_matrix) :=
  X ← call (fit_transform X);
  bandwidth ← call (estimate_bandwidth X (3 # 10));
  connectivity ← call (kneighbors_graph X 10 false);
  sum ← call (sparse_add connectivity (transpose connectivity));
  let connectivity := sparse_scale (1 # 2) sum in
  ret (X, bandwidth, connectivity).

(** line 91: what the last branch prints *)
Definition notice : string :=
  "No Algorithm selected. Default is MiniBatchKMeans".

(** lines 69-92: the chain on the algorithm's name *)
Definition select_model (algorithm : string) (n_clusters : Z)
    (bandwidth : float) (connectivity : csr_matrix) : Py Estimator :=
  if decide (algorithm = "MiniBatchKMeans") then
    ret (MiniBatchKMeans n_clusters)
  else if decide (algorithm = "AffinityPropagation") then
    ret (AffinityPropagation (9 # 10) (-200 # 1))
  else if decide (algorithm = "MeanShift") then
    ret (MeanShift bandwidth true)
  else if decide (algorithm = "SpectralClustering") then
    ret (SpectralClustering n_clusters "arpack" "nearest_neighbors")
  else if decide (algorithm = "Ward") then
    ret (AgglomerativeClustering n_clusters "ward" None connectivity)
  else if decide (algorithm = "AgglomerativeClustering") then
    ret (AgglomerativeClustering n_clusters "average" (Some "cityblock")
           connectivity)
  else if decide (algorithm = "Birch") then
    ret (Birch n_clusters)
  else if decide (algorithm = "DBSCAN") then
    ret (DBSCAN (1 # 5))
  else
    print notice;;
    ret (MiniBatchKMeans n_clusters).

(** lines 95-98; [astype(np.int)] leaves integer labels as they are *)
Definition extract_labels (model : Fitted) (X : PointSet) : Py (list Z) :=
  match labels_ model with
  | Some labels => ret labels
  | None => call (predict model X)
  end.

Definition clustering (X : PointSet) (algorithm : string) (n_clusters : Z)
  : Py (PointSet * list Z) :=
  '(X, bandwidth, connectivity) ← prepare X;
  model ← select_model algorithm n_clusters bandwidth connectivity;
  model ← call_random (fit model X);
  y_pred ← extract_labels model X;
  ret (X, y_pred).

(** ** Lines 102-113: [get_dataset] *)
Definition get_dataset (dataset : string) (n_samples : Z)
  : Py (PointSet * option (list Z)) :=
  if decide (dataset = "Noisy Circles") then
    '(X, y) ← call_random (make_circles n_samples (1 # 2) (1 # 20));
    ret (X, Some y)
  else if decide (dataset = "Noisy Moons") then
    '(X, y) ← call_random (make_moons n_samples (1 # 20));
    ret (X, Some y)
  else if decide (dataset = "Blobs") then
    '(X, y) ← call (make_blobs n_samples 8);
    ret (X, Some y)
  else
    X ← call_random (random_rand2 n_samples);
    ret (X, None).

(** ** Lines 116-176: the callbacks

    Each is called as [f(attrname, old, new)] and uses none of the three
    arguments: it reads the widgets instead. A name under [global] is the
    module's; every other assigned name is local to the call. *)

(** declares [global X, y] *)
Definition update_algorithm : Py unit :=
  algorithm ← gets algorithm_select_value;
  n_clusters ← gets (fun s => int (clusters_slider_value s));
  X ← gets global_X;
  '(X, y_pred) ← clustering X algorithm n_clusters;
  modify (set_global_X X);;
  colors ← call (recolor y_pred);
  source_data_setitem "colors" (Strings colors);;
  source_data_setitem "x" (Floats (column0 X));;
  source_data_setitem "y" (Floats (column1 X));;
  modify (set_plot_title (Some algorithm)).

(** declares [global X, y] *)
Definition update_dataset : Py unit :=
  dataset ← gets dataset_select_value;
  algorithm ← gets algorithm_select_value;
  n_clusters ← gets (fun s => int (clusters_slider_value s));
  n_samples ← gets (fun s => int (samples_slider_value s));
  '(X, y) ← get_dataset dataset n_samples;
  modify (set_global_X X);;
  modify (set_global_y y);;
  '(X, y_pred) ← clustering X algorithm n_clusters;
  modify (set_global_X X);;
  colors ← call (recolor y_pred);
  source_data_setitem "x" (Floats (column0 X));;
  source_data_setitem "y" (Floats (column1 X));;
  source_data_setitem "colors" (Strings colors).

(** no [global] declaration: [X] and [y] are locals here *)
Definition update_samples : Py unit :=
  dataset ← gets dataset_select_value;
  algorithm ← gets algorithm_select_value;
  n_clusters ← gets (fun s => int (clusters_slider_value s));
  n_samples ← gets (fun s => int (samples_slider_value s));
  '(X, y) ← get_dataset dataset n_samples;
  '(X, y_pred) ← clustering X algorithm n_clusters;
  colors ← call (recolor y_pred);
  source_data_setitem "x" (Floats (column0 X));;
  source_data_setitem "y" (Floats (column1 X));;
  source_data_setitem "colors" (Strings colors).

(** declares [global X] *)
Definition update_clusters : Py unit :=
  algorithm ← gets algorithm_select_value;
  n_clusters ← gets (fun s => int (clusters_slider_value s));
  n_samples ← gets (fun s => int (samples_slider_value s));
  X ← gets global_X;
  '(X, y_pred) ← clustering X algorithm n_clusters;
  modify (set_global_X X);;
  colors ← call (recolor y_pred);
  source_data_setitem "x" (Floats (column0 X));;
  source_data_setitem "y" (Floats (column1 X));;
  source_data_setitem "colors" (Strings colors).

(** ** Lines 178-181: the widgets' [on_change] registrations

    A user's action sets the widget's value, then the registered callback
    runs. *)
Inductive event : Type :=
| algorithm_select_change (new : string)
| dataset_select_change (new : string)
| clusters_slider_change (new : float)
| samples_slider_change (new : float).

Definition on_change (e : event) : Py unit :=
  match e with
  | algorithm_select_change new =>
      modify (set_algorithm_select_value new);; update_algorithm
  | dataset_select_change new =>
      modify (set_dataset_select_value new);; update_dataset
  | clusters_slider_change new =>
      modify (set_clusters_slider_value new);; update_clusters
  | samples_slider_change new =>
      modify (set_samples_slider_value new);; update_samples
  end.

(** the four widgets' values: algorithm, dataset, samples, clusters *)
Definition widgets (s : process) : string * string * float * float :=
  (algorithm_select_value s, dataset_select_value s,
   samples_slider_value s, clusters_slider_value s).

(** ** Lines 16-56: the module's body up to the widgets *)

(** the state before line 16: nothing bound yet *)
Definition unbound : process :=
  {| global_X := []; global_y := None; source_data := ∅; plot_title := None;
     algorithm_select_value := ""; dataset_select_value := "";
     samples_slider_value := 0%Q; clusters_slider_value := 0%Q;
     random_state := random_seed 0; stdout := [] |}.

Definition startup : Py unit :=
  modify (set_random_state (random_seed 0));;
  let n_samples := 1500 in
  '(X, y) ← call_random (make_circles n_samples (1 # 2) (1 # 20));
  modify (set_global_X X);;
  modify (set_global_y (Some y));;
  '(X, bandwidth, connectivity) ← prepare X;
  modify (set_global_X X);;
  colors ← call (recolor y);
  modify (set_source_data
            (<["x" := Floats (column0 X)]>
               (<["y" := Floats (column1 X)]>
                  (<["colors" := Strings colors]> ∅))));;
  modify (set_plot_title None);;
  modify (set_algorithm_select_value "MiniBatchKMeans");;
  modify (set_dataset_select_value "Noisy Circles");;
  modify (set_samples_slider_value (1500 # 1));;
  modify (set_clusters_slider_value (2 # 1)).

(** ** Footprints

    A statement is [framed] when the generator and the printed lines are all
    it reads from the state and all it writes to it. *)
Definition framed {A : Type} (m : Py A) : Prop :=
  forall s, exists r g out,
    m s = (r, set_stdout out (set_random_state g s))
    /\ forall s', random_state s' = random_state s -> stdout s' = stdout s ->
         m s' = (r, set_stdout out (set_random_state g s')).

End Script.

(** ** A small deterministic library

    An instance of [Library] on which the script's model runs by computation:
    a linear congruential generator for numpy's, datasets laid out by index,
    a scaler that only centres, a neighbour graph over the following indices,
    and estimators that label by index or by sign.  [Birch] keeps no [labels_]
    here, so that both ways of reading the labels are exercised. *)
Module Stub.

Definition next (r : Z) : Z := (r * 1103515245 + 12345) mod 2147483648.

Definition uniform (r : Z) : float := Qred (Qmake r 2147483648).

Fixpoint rand_rows (n : nat) (r : Z) : PointSet * Z :=
  match n with
  | O => ([], r)
  | S n' =>
      let r1 := next r in
      let r2 := next r1 in
      let (X, r') := rand_rows n' r2 in
      ((uniform r1, uniform r2) :: X, r')
  end.

Definition negative_dimensions : exception :=
  LibraryError "negative dimensions are not allowed".

Definition uniform_rows (n : Z) (r : Z) : result PointSet * Z :=
  if decide (0 <= n)
  then let (X, r') := rand_rows (Z.to_nat n) r in (Ok X, r')
  else (Raise negative_dimensions, r).

(** [n] samples in [classes] classes: sample [i] has label [i mod classes] and
    sits at [centre label], moved by [noise] times a random offset. *)
Definition labelled (classes : nat) (centre : Z -> float) (noise : float)
    (n : Z) (r : Z) : result (PointSet * list Z) * Z :=
  if decide (0 <= n) then
    let (offsets, r') := rand_rows (Z.to_nat n) r in
    let y := (fun i => Z.of_nat (i mod classes)) <$> seq 0 (Z.to_nat n) in
    let X := zip_with (fun l d => (Qred (centre l + noise * fst d),
                                   Qred (noise * snd d))%Q) y offsets in
    (Ok (X, y), r')
  else (Raise negative_dimensions, r).

Definition circles (n : Z) (factor noise : float) (r : Z) :=
  labelled 2 (fun l => if decide (l = 0) then 1%Q else factor) noise n r.

Definition moons (n : Z) (noise : float) (r : Z) :=
  labelled 2 inject_Z noise n r.

Definition blobs (n : Z) (random_state : Z) : result (PointSet * list Z) :=
  fst (labelled 3 (fun l => inject_Z (3 * l)) 1%Q n random_state).

Definition mean (l : list float) : float :=
  Qred (foldr (fun a b => Qred (a + b)) 0%Q l
        / inject_Z (Z.of_nat (length l))).

Definition no_samples : exception :=
  LibraryError "Found array with 0 sample(s)".

Definition centred (X : PointSet) : result PointSet :=
  match X with
  | [] => Raise no_samples
  | _ =>
      let mx := mean (column0 X) in
      let my := mean (column1 X) in
      Ok ((fun p => (Qred (fst p - mx), Qred (snd p - my))%Q) <$> X)
  end.

Definition unit_bandwidth (X : PointSet) (quantile : float) : result float :=
  match X with
  | [] => Raise no_samples
  | _ => Ok 1%Q
  end.

(** sample [i]'s neighbours are the [k] indices after it, cyclically *)
Definition ring_graph (X : PointSet) (k : Z) (include_self : bool)
  : result csr_matrix :=
  let n := length X in
  if decide (0 < k < Z.of_nat n) then
    Ok {| shape := (n, n);
          data := list_to_map
            (i ← seq 0 n;
             d ← seq (if include_self then 0 else 1)%nat (Z.to_nat k);
             [((i, (i + d) mod n)%nat, 1%Q)]) |}
  else Raise (LibraryError "Expected n_neighbors <= n_samples").

Definition by_index (c : Z) (X : PointSet) : list Z :=
  (fun i => Z.of_nat i mod c) <$> seq 0 (length X).

Definition by_sign (X : PointSet) : list Z :=
  (fun p => if Qle_bool 0 (fst p) then 1 else 0) <$> X.

Definition noise_only (X : PointSet) : list Z := (fun _ => -1) <$> X.

Definition with_labels (label : PointSet -> list Z) (X : PointSet) : Fitted :=
  {| labels_ := Some (label X); predict := fun X' => Ok (label X') |}.

Definition without_labels (label : PointSet -> list Z) : Fitted :=
  {| labels_ := None; predict := fun X' => Ok (label X') |}.

Definition checked (c : Z) (X : PointSet) (model : Fitted) : result Fitted :=
  if decide (0 < c <= Z.of_nat (length X)) then Ok model
  else Raise (LibraryError "n_clusters out of range").

Definition fit_by_rule (model : Estimator) (X : PointSet) (r : Z) : result Fitted * Z :=
  match model with
  | MiniBatchKMeans c => (checked c X (with_labels (by_index c) X), next r)
  | AffinityPropagation _ _ => (Ok (with_labels by_sign X), r)
  | MeanShift _ _ => (Ok (with_labels by_sign X), r)
  | SpectralClustering c _ _ =>
      (checked c X (with_labels (by_index c) X), next r)
  | AgglomerativeClustering c _ _ connectivity =>
      if decide (shape connectivity = (length X, length X))
      then (checked c X (with_labels (by_index c) X), r)
      else (Raise ValueError, r)
  | Birch c => (checked c X (without_labels (by_index c)), r)
  | DBSCAN _ => (Ok (with_labels noise_only X), r)
  end.

#[export] Instance library : Library := {|
  RandomState := Z;
  random_seed := fun seed => seed;
  random_rand2 := uniform_rows;
  make_circles := circles;
  make_moons := moons;
  make_blobs := blobs;
  fit_transform := centred;
  estimate_bandwidth := unit_bandwidth;
  kneighbors_graph := ring_graph;
  fit := fit_by_rule;
  Spectral6 :=
    ["#3288bd"; "#99d594"; "#e6f598"; "#fee08b"; "#fc8d59"; "#d53e4f"] |}.

(** a session on twelve uniform points, with three clusters asked for *)
Definition session : process :=
  {| global_X := fst (rand_rows 12 5); global_y := None;
     source_data := ∅; plot_title := None;
     algorithm_select_value := "Birch"; dataset_select_value := "Blobs";
     samples_slider_value := 12 # 1; clusters_slider_value := 3 # 1;
     random_state := 7; stdout := [] |}.

(** a session on 130 uniform points, with 125 clusters asked for *)
Definition crowded : process :=
  {| global_X := fst (rand_rows 130 5); global_y := None;
     source_data := ∅; plot_title := None;
     algorithm_select_value := "MiniBatchKMeans";
     dataset_select_value := "Blobs";
     samples_slider_value := 130 # 1; clusters_slider_value := 125 # 1;
     random_state := 7; stdout := [] |}.

End Stub.

(** * Properties *)

(** ** Indexing and comprehensions *)

Lemma getitem_Ok {A : Type} (a : list A) (i : Z) (x : A) :
  getitem a i = Ok x ->
  - Z.of_nat (length a) <= i < Z.of_nat (length a) /\ x ∈ a.
Proof.
  unfold getitem. cbv zeta.
  destruct (decide (- Z.of_nat (length a) <= i < Z.of_nat (length a)))
    as [Hi | Hi]; [| discriminate].
  destruct (a !! _) as [x' |] eqn:Hx; [| discriminate].
  intros [= <-]. split; [exact Hi |]. eapply list_elem_of_lookup_2, Hx.
Qed.

Lemma getitem_in_range {A : Type} (a : list A) (i : Z) :
  - Z.of_nat (length a) <= i < Z.of_nat (length a) ->
  exists x, getitem a i = Ok x.
Proof.
  intros Hi. unfold getitem. cbv zeta.
  destruct (decide _) as [_ | Hn]; [| contradiction].
  destruct (a !! _) as [x |] eqn:Hx; [by exists x |].
  apply lookup_ge_None in Hx. destruct (decide (i < 0)); lia.
Qed.

Lemma getitem_out_of_range {A : Type} (a : list A) (i : Z) :
  ~ (- Z.of_nat (length a) <= i < Z.of_nat (length a)) ->
  getitem a i = Raise IndexError.
Proof.
  intros Hi. unfold getitem. cbv zeta.
  destruct (decide _) as [Hy | _]; [contradiction | reflexivity].
Qed.

(** A negative index [-k] reads the [k]-th element from the end. *)
Lemma getitem_minus_one {A : Type} (a : list A) (x : A) :
  last a = Some x -> getitem a (-1) = Ok x.
Proof.
  intros Hl. unfold getitem. cbv zeta.
  assert (length a <> 0%nat) by (destruct a; [discriminate | simpl; lia]).
  destruct (decide _) as [_ | Hn]; [| lia].
  destruct (decide (-1 < 0)) as [_ | Hn]; [| lia].
  rewrite last_lookup in Hl.
  replace (Z.to_nat (-1 + Z.of_nat (length a))) with (pred (length a)) by lia.
  by rewrite Hl.
Qed.

Lemma comprehension_Ok {A B : Type} (f : A -> result B) (l : list A)
    (cs : list B) :
  comprehension f l = Ok cs <-> Forall2 (fun i c => f i = Ok c) l cs.
Proof.
  revert cs. induction l as [| i l IH]; intros cs; simpl.
  - split.
    + intros [= <-]. constructor.
    + intros H. by inversion H.
  - split.
    + destruct (f i) as [c |] eqn:Hc; [| discriminate].
      destruct (comprehension f l) as [cs' |]; [| discriminate].
      intros [= <-]. constructor; [exact Hc |]. by apply IH.
    + intros H. inversion H as [| ? c ? cs' Hc Hcs]; subst.
      rewrite Hc. apply IH in Hcs. by rewrite Hcs.
Qed.

Lemma comprehension_total {A B : Type} (f : A -> result B) (l : list A) :
  Forall (fun i => exists c, f i = Ok c) l ->
  exists cs, comprehension f l = Ok cs.
Proof.
  induction 1 as [| i l [c Hc] _ [cs Hcs]]; simpl.
  - by exists [].
  - exists (c :: cs). by rewrite Hc, Hcs.
Qed.

(** The first label that cannot be looked up ends the comprehension. *)
Lemma comprehension_Raise {A B : Type} (f : A -> result B) (l : list A)
    (i : A) (e : exception) :
  i ∈ l -> (forall j, j ∈ l -> f j = Raise e \/ exists c, f j = Ok c) ->
  f i = Raise e -> comprehension f l = Raise e.
Proof.
  induction l as [| j l IH]; intros Hin Hall Hi.
  - by apply elem_of_nil in Hin.
  - simpl. destruct (Hall j) as [Hj | [c Hj]]; [left | |]; rewrite Hj; [done |].
    assert (i ∈ l) as Hl.
    { apply elem_of_cons in Hin as [-> |]; [congruence | done]. }
    rewrite IH; [done | done | | done].
    intros k Hk. apply Hall. by right.
Qed.

(** ** The small library honours the contract *)

Lemma rand_rows_length (n : nat) (r : Z) :
  length (fst (Stub.rand_rows n r)) = n.
Proof.
  revert r. induction n as [| n IH]; intros r; simpl; [done |].
  specialize (IH (Stub.next (Stub.next r))).
  destruct (Stub.rand_rows n _) as [X r']. simpl in *. by rewrite IH.
Qed.

Lemma labelled_rows (classes : nat) (centre : Z -> float) (noise : float)
    (n : nat) (r : Z) :
  exists X y r',
    Stub.labelled classes centre noise (Z.of_nat n) r = (Ok (X, y), r')
    /\ length X = n /\ length y = n.
Proof.
  unfold Stub.labelled.
  destruct (decide (0 <= Z.of_nat n)) as [_ | Hn]; [| lia].
  rewrite Nat2Z.id. pose proof (rand_rows_length n r) as Hlen.
  destruct (Stub.rand_rows n r) as [offsets r']. simpl in Hlen.
  eexists _, _, _. split; [reflexivity |].
  rewrite length_zip_with, !length_fmap, !length_seq, Hlen. lia.
Qed.

Lemma by_rule_labels (model : Estimator) (X : PointSet) (r : Z)
    (F : Fitted) (r' : Z) :
  Stub.fit_by_rule model X r = (Ok F, r') ->
  exists label : PointSet -> list Z,
    (forall X', length (label X') = length X')
    /\ (forall X', predict F X' = Ok (label X'))
    /\ (forall l, labels_ F = Some l -> l = label X).
Proof.
  assert (forall c, length (Stub.by_index c X) = length X) as Hindex.
  { intros c. unfold Stub.by_index. by rewrite length_fmap, length_seq. }
  assert (forall label : PointSet -> list Z,
             (forall X', length (label X') = length X') ->
             forall G, G = Stub.with_labels label X \/ G = Stub.without_labels label ->
             exists label' : PointSet -> list Z,
               (forall X', length (label' X') = length X')
               /\ (forall X', predict G X' = Ok (label' X'))
               /\ (forall l, labels_ G = Some l -> l = label' X)) as Hgen.
  { intros label Hlabel G [-> | ->]; exists label; simpl;
      (split; [done |]); (split; [done |]); congruence. }
  assert (forall c, forall X', length (Stub.by_index c X') = length X') as Hidx.
  { intros c X'. unfold Stub.by_index. by rewrite length_fmap, length_seq. }
  assert (forall X', length (Stub.by_sign X') = length X') as Hsign.
  { intros X'. unfold Stub.by_sign. by rewrite length_fmap. }
  assert (forall X', length (Stub.noise_only X') = length X') as Hnoise.
  { intros X'. unfold Stub.noise_only. by rewrite length_fmap. }
  unfold Stub.fit_by_rule, Stub.checked.
  destruct model; repeat case_decide; intros [= <- <-]; eauto.
Qed.

#[export] Instance stub_contract : LibraryContract Stub.library.
Proof.
  split.
  - reflexivity.
  - intros n r. simpl. unfold Stub.uniform_rows.
    destruct (decide (0 <= Z.of_nat n)) as [_ | Hn]; [| lia].
    rewrite Nat2Z.id. pose proof (rand_rows_length n r) as Hlen.
    destruct (Stub.rand_rows n r) as [X r']. by exists X, r'.
  - intros n factor noise r. apply labelled_rows.
  - intros n noise r. apply labelled_rows.
  - intros n random_state. simpl. unfold Stub.blobs.
    destruct (labelled_rows 3 (fun l => inject_Z (3 * l)) 1%Q n random_state)
      as (X & y & r' & -> & HX & Hy).
    by exists X, y.
  - intros X X'. simpl. unfold Stub.centred.
    destruct X as [| p X]; [discriminate |].
    intros [= <-]. simpl. by rewrite length_fmap.
  - intros m X r F r' l Hfit Hl. simpl in Hfit.
    destruct (by_rule_labels _ _ _ _ _ Hfit) as (label & Hlen & _ & Hlab).
    by rewrite (Hlab l Hl).
  - intros m X r F r' X' l Hfit Hp. simpl in Hfit.
    destruct (by_rule_labels _ _ _ _ _ Hfit) as (label & Hlen & Hpred & _).
    rewrite Hpred in Hp. injection Hp as <-. apply Hlen.
Qed.

(** ** The recolor step *)

Section Recolor.
Context {L : Library} {LC : LibraryContract L}.

Lemma Spectral6_six :
  exists c0 c1 c2 c3 c4 c5, Spectral6 = [c0; c1; c2; c3; c4; c5].
Proof.
  pose proof Spectral6_length as Hlen.
  destruct Spectral6 as [| c0 [| c1 [| c2 [| c3 [| c4 [| c5 [| c6 l]]]]]]];
    try discriminate.
  by exists c0, c1, c2, c3, c4, c5.
Qed.

Lemma spectral_length : length spectral = 120%nat.
Proof.
  unfold spectral. destruct Spectral6_six as (? & ? & ? & ? & ? & ? & ->).
  reflexivity.
Qed.

Lemma spectral_base (c : string) : c ∈ spectral -> c ∈ Spectral6.
Proof.
  unfold spectral. rewrite !list_elem_of_In, in_concat.
  intros (l & Hl & Hc). apply list_elem_of_In in Hl.
  by apply elem_of_replicate in Hl as [-> _].
Qed.

Lemma getitem_spectral (i : Z) :
  -120 <= i <= 119 -> exists c, getitem spectral i = Ok c.
Proof.
  intros Hi. apply getitem_in_range. rewrite spectral_length. lia.
Qed.

Lemma getitem_spectral_Raise (i : Z) :
  ~ (-120 <= i <= 119) -> getitem spectral i = Raise IndexError.
Proof.
  intros Hi. apply getitem_out_of_range. rewrite spectral_length. lia.
Qed.

Lemma recolor_Ok (y_pred : list Z) (colors : list string) :
  recolor y_pred = Ok colors ->
  length colors = length y_pred
  /\ Forall (fun i => -120 <= i <= 119) y_pred
  /\ Forall (fun c => c ∈ Spectral6) colors.
Proof.
  unfold recolor. rewrite comprehension_Ok. intros Hall.
  split; [symmetry; eapply Forall2_length, Hall |].
  induction Hall as [| i c l cs Hc _ [IHl IHc]]; [by split |].
  apply getitem_Ok in Hc as [Hi Hc]. rewrite spectral_length in Hi.
  split; constructor; [lia | done | by apply spectral_base | done].
Qed.

Lemma recolor_total (y_pred : list Z) :
  Forall (fun i => -120 <= i <= 119) y_pred ->
  exists colors, recolor y_pred = Ok colors.
Proof.
  intros Hall. apply comprehension_total.
  eapply Forall_impl; [exact Hall |]. intros i Hi. by apply getitem_spectral.
Qed.

(** A label outside the palette's index range makes the step raise. *)
Lemma recolor_Raise (y_pred : list Z) (i : Z) :
  i ∈ y_pred -> ~ (-120 <= i <= 119) -> recolor y_pred = Raise IndexError.
Proof.
  intros Hin Hi. apply comprehension_Raise with (i := i); [done | |].
  - intros j _. destruct (decide (-120 <= j <= 119)) as [Hj | Hj].
    + right. by apply getitem_spectral.
    + left. by apply getitem_spectral_Raise.
  - by apply getitem_spectral_Raise.
Qed.

(** C4, as the code has it: for every LabelAssignment whose labels lie in
    [-120, 119], the recolor step produces a ColorAssignment of the same
    length, each colour read at its label's index from the palette array,
    which is the 6-colour base palette repeated 20 times (120 entries); so
    every entry is one of the 6 base colours. *)
Theorem recolor_palette (y_pred : list Z) :
  Forall (fun i => -120 <= i <= 119) y_pred ->
  spectral = concat (replicate 20 Spectral6)
  /\ length Spectral6 = 6%nat
  /\ exists colors,
      recolor y_pred = Ok colors
      /\ length colors = length y_pred
      /\ Forall2 (fun i c => getitem spectral i = Ok c) y_pred colors
      /\ Forall (fun c => c ∈ Spectral6) colors.
Proof.
  intros Hall. split; [reflexivity |]. split; [apply Spectral6_length |].
  destruct (recolor_total y_pred Hall) as [colors Hc]. exists colors.
  destruct (recolor_Ok _ _ Hc) as (Hlen & _ & Hbase).
  repeat split; try done. by apply comprehension_Ok.
Qed.

(** C10: the recolor step succeeds on every LabelAssignment with entries in
    [-120, 119]; in particular DBSCAN's noise label -1 reads the palette from
    its end and gets the last base colour, without an out-of-bounds error. *)
Theorem recolor_negative_labels :
  (exists c, last Spectral6 = Some c /\ recolor [-1] = Ok [c])
  /\ forall y_pred : list Z,
      Forall (fun i => -120 <= i <= 119) y_pred ->
      exists colors, recolor y_pred = Ok colors
                     /\ length colors = length y_pred.
Proof.
  split.
  - destruct Spectral6_six as (c0 & c1 & c2 & c3 & c4 & c5 & Hs).
    exists c5. split; [by rewrite Hs |].
    unfold recolor. simpl. rewrite (getitem_minus_one spectral c5); [done |].
    unfold spectral. by rewrite Hs.
  - intros y_pred Hall. destruct (recolor_total y_pred Hall) as [colors Hc].
    exists colors. split; [done |]. by apply recolor_Ok in Hc as [? _].
Qed.

End Recolor.


(** ** Sparse matrices *)

Lemma Qplus_swap (a b : float) : (a + b)%Q = (b + a)%Q.
Proof.
  destruct a as [an ad], b as [bn bd]. unfold Qplus. simpl.
  f_equal; [lia | apply Pos.mul_comm].
Qed.

Lemma transpose_lookup (A : csr_matrix) (i j : nat) :
  data (transpose A) !! (i, j) = data A !! (j, i).
Proof.
  unfold transpose. simpl.
  change (i, j) with (prod_swap (j, i)). apply (lookup_kmap prod_swap).
Qed.

(** [0.5 * (G + G.T)] is its own transpose. *)
Lemma symmetrized (G S : csr_matrix) :
  sparse_add G (transpose G) = Ok S ->
  transpose (sparse_scale (1 # 2) S) = sparse_scale (1 # 2) S.
Proof.
  unfold sparse_add. destruct (decide _) as [Hshape | ]; [| discriminate].
  intros [= <-]. unfold transpose at 1, sparse_scale. simpl in *. f_equal.
  - by symmetry.
  - apply map_eq. intros [i j].
    change (i, j) with (prod_swap (j, i)) at 1.
    rewrite (lookup_kmap prod_swap), !lookup_fmap, !lookup_union_with.
    change (kmap prod_swap (data G)) with (data (transpose G)).
    rewrite !transpose_lookup.
    destruct (data G !! (i, j)) as [a |], (data G !! (j, i)) as [b |];
      simpl; try done.
    by rewrite Qplus_swap.
Qed.

Lemma symmetrized_entry (G S : csr_matrix) (i j : nat) :
  sparse_add G (transpose G) = Ok S ->
  (entry (sparse_scale (1 # 2) S) i j == (1 # 2) * (entry G i j + entry G j i))%Q.
Proof.
  unfold sparse_add. destruct (decide _) as [_ | ]; [| discriminate].
  intros [= <-]. unfold entry, sparse_scale. simpl.
  rewrite lookup_fmap, lookup_union_with.
  change (kmap prod_swap (data G)) with (data (transpose G)).
  rewrite transpose_lookup.
  destruct (data G !! (i, j)) as [a |], (data G !! (j, i)) as [b |];
    simpl; ring.
Qed.

(** ** Footprints of the statements *)

Section Frames.
Context {L : Library}.

Lemma framed_ret {A : Type} (a : A) : framed (ret a).
Proof.
  intros s. exists (Ok a), (random_state s), (stdout s).
  split; [by destruct s |]. intros [] Hg Ho. simpl in *. by subst.
Qed.

Lemma framed_call {A : Type} (r : result A) : framed (call r).
Proof.
  intros s. exists r, (random_state s), (stdout s).
  split; [by destruct s |]. intros [] Hg Ho. simpl in *. by subst.
Qed.

Lemma framed_call_random {A : Type}
    (f : RandomState -> result A * RandomState) :
  framed (call_random f).
Proof.
  intros s. unfold call_random.
  exists (fst (f (random_state s))), (snd (f (random_state s))), (stdout s).
  split.
  - destruct (f (random_state s)). by destruct s.
  - intros s' -> <-. destruct (f (random_state s)). by destruct s'.
Qed.

Lemma framed_print (line : string) : framed (print line).
Proof.
  intros s. exists (Ok tt), (random_state s), (stdout s ++ [line]).
  split; [by destruct s |]. intros [] Hg Ho. simpl in *. by subst.
Qed.

Lemma framed_bind {A B : Type} (m : Py A) (k : A -> Py B) :
  framed m -> (forall a, framed (k a)) -> framed (m ≫= k).
Proof.
  intros Hm Hk s. unfold mbind, Py_bind, bind.
  destruct (Hm s) as (r & g & out & Hs & Hs'). destruct r as [a | e].
  - destruct (Hk a (set_stdout out (set_random_state g s)))
      as (r2 & g2 & out2 & Hk1 & Hk2).
    exists r2, g2, out2. split.
    + by rewrite Hs, Hk1.
    + intros s' Hg Ho. rewrite (Hs' s' Hg Ho). by rewrite Hk2.
  - exists (Raise e), g, out. split.
    + by rewrite Hs.
    + intros s' Hg Ho. by rewrite (Hs' s' Hg Ho).
Qed.

(** A framed statement leaves every other part of the state alone. *)
Lemma framed_rest {A : Type} (m : Py A) (s : process) :
  framed m ->
  let s' := snd (m s) in
  global_X s' = global_X s /\ global_y s' = global_y s
  /\ source_data s' = source_data s /\ plot_title s' = plot_title s
  /\ algorithm_select_value s' = algorithm_select_value s
  /\ dataset_select_value s' = dataset_select_value s
  /\ samples_slider_value s' = samples_slider_value s
  /\ clusters_slider_value s' = clusters_slider_value s.
Proof.
  intros Hm. destruct (Hm s) as (r & g & out & -> & _). by simpl.
Qed.

End Frames.

Create HintDb frames.

#[export] Hint Resolve framed_ret framed_call framed_call_random framed_print
  : frames.

Ltac frames :=
  repeat first
    [ apply framed_bind; [| intros ? ]
    | solve [ eauto with frames ]
    | match goal with |- framed (let '(_, _) := ?p in _) => destruct p end
    | match goal with |- framed (if ?c then _ else _) => destruct c end
    | match goal with
      | |- framed (match ?o with Some _ => _ | None => _ end) => destruct o
      end ].

(** ** The dispatcher *)

Section Dispatcher.
Context {L : Library}.

Ltac run := unfold mbind, Py_bind, bind, call, call_random, ret, gets, modify.

Lemma framed_prepare (X : PointSet) : framed (prepare X).
Proof. unfold prepare. frames. Qed.

Lemma framed_select_model (algorithm : string) (n_clusters : Z)
    (bandwidth : float) (connectivity : csr_matrix) :
  framed (select_model algorithm n_clusters bandwidth connectivity).
Proof. unfold select_model. frames. Qed.

Lemma framed_extract_labels (model : Fitted) (X : PointSet) :
  framed (extract_labels model X).
Proof. unfold extract_labels. frames. Qed.

(** What [clustering] does to the state: it draws random numbers and may
    print; it reads and writes nothing else. *)
Lemma framed_clustering (X : PointSet) (algorithm : string) (n_clusters : Z) :
  framed (clustering X algorithm n_clusters).
Proof.
  unfold clustering.
  pose proof framed_prepare. pose proof framed_select_model.
  pose proof framed_extract_labels. frames.
Qed.

Lemma select_model_unknown (algorithm : string) (n_clusters : Z)
    (bandwidth : float) (connectivity : csr_matrix) (s : process) :
  algorithm ∉ clustering_algorithms ->
  select_model algorithm n_clusters bandwidth connectivity s =
  (Ok (MiniBatchKMeans n_clusters), set_stdout (stdout s ++ [notice]) s).
Proof.
  unfold clustering_algorithms. rewrite !not_elem_of_cons.
  intros (? & ? & ? & ? & ? & ? & ? & ? & _).
  unfold select_model. repeat (case_decide; [contradiction |]). reflexivity.
Qed.

Lemma select_model_known (algorithm : string) (n_clusters : Z)
    (bandwidth : float) (connectivity : csr_matrix) (s : process) :
  algorithm ∈ clustering_algorithms ->
  exists model,
    select_model algorithm n_clusters bandwidth connectivity s = (Ok model, s).
Proof.
  unfold clustering_algorithms. rewrite !elem_of_cons, elem_of_nil.
  intros Hin. unfold select_model.
  repeat (case_decide; [by eexists |]). exfalso. tauto.
Qed.

Lemma prepare_run (X : PointSet) (s : process) :
  prepare X s = (fst (prepare X unbound), s).
Proof.
  unfold prepare. run.
  repeat (match goal with
          | |- context [match ?r with Ok _ => _ | Raise _ => _ end] =>
              destruct r
          end; simpl; try reflexivity).
Qed.

Lemma prepare_Ok (X Xs : PointSet) (bandwidth : float) (C : csr_matrix)
    (s s' : process) :
  prepare X s = (Ok (Xs, bandwidth, C), s') <->
  s' = s
  /\ fit_transform X = Ok Xs
  /\ estimate_bandwidth Xs (3 # 10) = Ok bandwidth
  /\ exists G S,
      kneighbors_graph Xs 10 false = Ok G
      /\ sparse_add G (transpose G) = Ok S
      /\ C = sparse_scale (1 # 2) S.
Proof.
  unfold prepare. run. split.
  - destruct (fit_transform X) as [X1 |]; [| discriminate].
    destruct (estimate_bandwidth X1 _) as [b |] eqn:Hb; [| discriminate].
    destruct (kneighbors_graph X1 10 false) as [G |] eqn:HG; [| discriminate].
    destruct (sparse_add G (transpose G)) as [S |] eqn:HS; [| discriminate].
    intros [= <- <- <- <-]. eauto 10.
  - intros (-> & -> & -> & G & S & -> & -> & ->). reflexivity.
Qed.

(** lines 93-100, once the estimator is chosen *)
Lemma clustering_run (X : PointSet) (algorithm : string) (n_clusters : Z)
    (s : process) :
  clustering X algorithm n_clusters s =
  match fst (prepare X unbound) with
  | Raise e => (Raise e, s)
  | Ok (Xs, bandwidth, C) =>
      match select_model algorithm n_clusters bandwidth C s with
      | (Raise e, s1) => (Raise e, s1)
      | (Ok model, s1) =>
          match fit model Xs (random_state s1) with
          | (Raise e, g) => (Raise e, set_random_state g s1)
          | (Ok F, g) =>
              match labels_ F with
              | Some labels => (Ok (Xs, labels), set_random_state g s1)
              | None =>
                  match predict F Xs with
                  | Ok y_pred => (Ok (Xs, y_pred), set_random_state g s1)
                  | Raise e => (Raise e, set_random_state g s1)
                  end
              end
          end
      end
  end.
Proof.
  unfold clustering. run. rewrite (prepare_run X s).
  destruct (fst (prepare X unbound)) as [[[Xs bandwidth] C] | e];
    [| reflexivity].
  simpl. destruct (select_model _ _ _ _ s) as [[model | e] s1]; [| reflexivity].
  simpl. destruct (fit model Xs (random_state s1)) as [[F | e] g];
    [| reflexivity].
  simpl. unfold extract_labels. run.
  destruct (labels_ F); [reflexivity |]. by destruct (predict F Xs).
Qed.

(** C1: with a name outside the eight listed ones the dispatcher returns what
    it returns for 'MiniBatchKMeans' with the same cluster count (the same
    PointSet and LabelAssignment, or the same exception), and leaves the same
    state but for one printed line, the notice of line 91.  The notice is
    printed once the data is prepared, so with every returned result; the call
    for 'MiniBatchKMeans' prints nothing. *)
Theorem clustering_unknown_algorithm (X : PointSet) (algorithm : string)
    (n_clusters : Z) (s : process) :
  algorithm ∉ clustering_algorithms ->
  let known := clustering X "MiniBatchKMeans" n_clusters s in
  let unknown := clustering X algorithm n_clusters s in
  fst unknown = fst known
  /\ stdout (snd known) = stdout s
  /\ match fst (prepare X s) with
     | Ok _ => snd unknown = set_stdout (stdout s ++ [notice]) (snd known)
     | Raise _ => snd unknown = snd known
     end
  /\ forall r, fst unknown = Ok r ->
       stdout (snd unknown) = stdout s ++ [notice].
Proof.
  intros Hunknown. cbv zeta. rewrite !clustering_run, (prepare_run X s).
  simpl fst at 3.
  destruct (fst (prepare X unbound)) as [[[Xs bandwidth] C] | e]; simpl.
  2: { repeat split; try done. }
  rewrite (select_model_unknown _ _ _ _ _ Hunknown).
  change (select_model "MiniBatchKMeans" n_clusters bandwidth C s)
    with (Ok (MiniBatchKMeans n_clusters), s).
  simpl.
  destruct (fit (MiniBatchKMeans n_clusters) Xs (random_state s))
    as [[F | e] g]; simpl; [| by repeat split].
  destruct (labels_ F); simpl; [by repeat split |].
  destruct (predict F Xs); simpl; by repeat split.
Qed.

Lemma clustering_DBSCAN (X : PointSet) (c1 c2 : Z) (s : process) :
  clustering X "DBSCAN" c1 s = clustering X "DBSCAN" c2 s.
Proof.
  rewrite !clustering_run.
  destruct (fst (prepare X unbound)) as [[[Xs bandwidth] C] | e]; reflexivity.
Qed.

End Dispatcher.

Section DispatcherContract.
Context {L : Library} {LC : LibraryContract L}.

(** C6: [clustering] returns exactly when the library calls it makes return:
    it standardizes the PointSet with the library's scaler (and prepares
    bandwidth and connectivity), fits the selected estimator on the
    standardized PointSet, takes the labels from the fitted estimator's
    [labels_] when it has that attribute and from [predict] on the same
    standardized data otherwise, and returns the standardized PointSet with
    those labels; both have as many entries as the PointSet given, the scaler
    keeping the rows and the estimator labelling each row it is given. *)
Theorem clustering_returns (X : PointSet) (algorithm : string)
    (n_clusters : Z) (s : process) (Xs : PointSet) (y_pred : list Z)
    (s' : process) :
  (clustering X algorithm n_clusters s = (Ok (Xs, y_pred), s') <->
   exists bandwidth C model s1 F g,
     fit_transform X = Ok Xs
     /\ prepare X s = (Ok (Xs, bandwidth, C), s)
     /\ select_model algorithm n_clusters bandwidth C s = (Ok model, s1)
     /\ fit model Xs (random_state s1) = (Ok F, g)
     /\ match labels_ F with
        | Some labels => y_pred = labels
        | None => predict F Xs = Ok y_pred
        end
     /\ s' = set_random_state g s1)
  /\ (clustering X algorithm n_clusters s = (Ok (Xs, y_pred), s') ->
      length Xs = length X /\ length y_pred = length X).
Proof.
  assert (clustering X algorithm n_clusters s = (Ok (Xs, y_pred), s') <->
          exists bandwidth C model s1 F g,
            fit_transform X = Ok Xs
            /\ prepare X s = (Ok (Xs, bandwidth, C), s)
            /\ select_model algorithm n_clusters bandwidth C s = (Ok model, s1)
            /\ fit model Xs (random_state s1) = (Ok F, g)
            /\ match labels_ F with
               | Some labels => y_pred = labels
               | None => predict F Xs = Ok y_pred
               end
            /\ s' = set_random_state g s1) as Hiff.
  { rewrite clustering_run. split.
    - destruct (fst (prepare X unbound)) as [[[X1 bandwidth] C] | e] eqn:Hprep;
        [| discriminate].
      assert (prepare X s = (Ok (X1, bandwidth, C), s)) as Hs
        by (by rewrite prepare_run, Hprep).
      pose proof Hs as (_ & HX & _)%prepare_Ok.
      destruct (select_model _ _ _ _ s) as [[model | e] s1] eqn:Hsel;
        [| discriminate].
      destruct (fit model X1 (random_state s1)) as [[F | e] g] eqn:Hfit;
        [| discriminate].
      destruct (labels_ F) as [labels |] eqn:Hlabels.
      + intros [= -> <- <-]. exists bandwidth, C, model, s1, F, g.
        rewrite Hlabels. by repeat split.
      + destruct (predict F X1) as [y |] eqn:Hy; [| discriminate].
        intros [= -> <- <-]. exists bandwidth, C, model, s1, F, g.
        rewrite Hlabels. by repeat split.
    - intros (bandwidth & C & model & s1 & F & g
              & _ & Hs & Hsel & Hfit & Hlabels & ->).
      rewrite prepare_run in Hs. injection Hs as ->.
      rewrite Hsel, Hfit. destruct (labels_ F); [by subst |].
      by rewrite Hlabels. }
  split; [exact Hiff |].
  intros (bandwidth & C & model & s1 & F & g
          & HX & _ & _ & Hfit & Hlabels & _)%Hiff.
  pose proof (fit_transform_rows _ _ HX) as HXs. split; [done |].
  rewrite <- HXs. destruct (labels_ F) as [labels |] eqn:Hl.
  - subst. eapply labels_rows; eassumption.
  - eapply predict_rows; eassumption.
Qed.

End DispatcherContract.

Section Connectivity.
Context {L : Library}.

(** C8: in the 'Ward' and 'AgglomerativeClustering' branches the estimator
    that is fitted carries the connectivity matrix computed on lines 65-67:
    the graph of the 10 nearest neighbours of the standardized points, self
    not included, averaged with its transpose; that matrix equals its own
    transpose, entry by entry. *)
Theorem connectivity_symmetric (X : PointSet) (algorithm : string)
    (n_clusters : Z) (s : process) (Xs : PointSet) (bandwidth : float)
    (C : csr_matrix) (s1 : process) :
  algorithm = "Ward" \/ algorithm = "AgglomerativeClustering" ->
  prepare X s = (Ok (Xs, bandwidth, C), s1) ->
  (exists G S,
      kneighbors_graph Xs 10 false = Ok G
      /\ sparse_add G (transpose G) = Ok S
      /\ C = sparse_scale (1 # 2) S
      /\ forall i j,
          (entry C i j == (1 # 2) * (entry G i j + entry G j i))%Q)
  /\ transpose C = C
  /\ (forall i j, entry C i j = entry C j i)
  /\ exists linkage affinity,
      select_model algorithm n_clusters bandwidth C s1 =
      (Ok (AgglomerativeClustering n_clusters linkage affinity C), s1)
      /\ clustering X algorithm n_clusters s =
         (model ← call_random
                    (fit (AgglomerativeClustering n_clusters linkage affinity C)
                       Xs);
          y_pred ← extract_labels model Xs;
          ret (Xs, y_pred)) s1.
Proof.
  intros Halg Hprep.
  pose proof Hprep as (-> & _ & _ & G & S & HG & HS & ->)%prepare_Ok.
  assert (transpose (sparse_scale (1 # 2) S) = sparse_scale (1 # 2) S) as Hsym
    by (eapply symmetrized, HS).
  split; [| split; [exact Hsym | split]].
  - exists G, S. repeat split; try done.
    intros i j. by apply symmetrized_entry.
  - intros i j. unfold entry. rewrite <- Hsym at 1.
    by rewrite transpose_lookup.
  - destruct Halg as [-> | ->].
    + exists "ward", None. split; [reflexivity |].
      unfold clustering. unfold mbind at 1, Py_bind at 1, bind at 1.
      by rewrite Hprep.
    + exists "average", (Some "cityblock"). split; [reflexivity |].
      unfold clustering. unfold mbind at 1, Py_bind at 1, bind at 1.
      by rewrite Hprep.
Qed.

End Connectivity.

(** ** The dataset generator *)

Section Datasets.
Context {L : Library}.

Lemma framed_get_dataset (dataset : string) (n_samples : Z) :
  framed (get_dataset dataset n_samples).
Proof. unfold get_dataset. frames. Qed.

(** Any name but the three labelled datasets' reaches line 111. *)
Lemma get_dataset_else (dataset : string) (n_samples : Z) (s : process) :
  dataset ∉ ["Noisy Circles"; "Noisy Moons"; "Blobs"] ->
  get_dataset dataset n_samples s =
  (X ← call_random (random_rand2 n_samples); ret (X, None)) s.
Proof.
  rewrite !not_elem_of_cons. intros (? & ? & ? & _).
  unfold get_dataset. by repeat (case_decide; [contradiction |]).
Qed.

Context {LC : LibraryContract L}.

Lemma get_dataset_uniform (dataset : string) (n : nat) (s : process) :
  dataset ∉ ["Noisy Circles"; "Noisy Moons"; "Blobs"] ->
  exists X g,
    random_rand2 (Z.of_nat n) (random_state s) = (Ok X, g)
    /\ get_dataset dataset (Z.of_nat n) s = (Ok (X, None), set_random_state g s)
    /\ length X = n.
Proof.
  intros Hname. rewrite (get_dataset_else _ _ _ Hname).
  destruct (random_rand2_rows n (random_state s)) as (X & g & Hrand & Hlen).
  exists X, g. split; [done |]. split; [| done].
  unfold mbind, Py_bind, bind, call_random, ret. by rewrite Hrand.
Qed.

(** C5: for each of the four dataset names and every sample count [n], the
    generator returns a PointSet of [n] points, with [n] ground-truth labels
    for 'Noisy Circles', 'Noisy Moons' and 'Blobs', and with [None] in their
    place for 'No Structure'; the library's generators are taken with their
    contract, as many rows as asked. *)
Theorem get_dataset_rows (dataset : string) (n : nat) (s : process) :
  dataset ∈ datasets_names ->
  exists X y s',
    get_dataset dataset (Z.of_nat n) s = (Ok (X, y), s')
    /\ length X = n
    /\ (dataset = "No Structure" -> y = None)
    /\ (dataset ∈ ["Noisy Circles"; "Noisy Moons"; "Blobs"] ->
        exists labels, y = Some labels /\ length labels = n).
Proof.
  unfold datasets_names. rewrite !elem_of_cons, elem_of_nil.
  intros [-> | [-> | [-> | [-> | []]]]].
  - destruct (make_circles_rows n (1 # 2) (1 # 20) (random_state s))
      as (X & y & g & Hgen & HX & Hy).
    exists X, (Some y), (set_random_state g s). repeat split.
    + unfold get_dataset. simpl.
      unfold mbind, Py_bind, bind, call_random, ret. by rewrite Hgen.
    + done.
    + discriminate.
    + intros _. by exists y.
  - destruct (make_moons_rows n (1 # 20) (random_state s))
      as (X & y & g & Hgen & HX & Hy).
    exists X, (Some y), (set_random_state g s). repeat split.
    + unfold get_dataset. simpl.
      unfold mbind, Py_bind, bind, call_random, ret. by rewrite Hgen.
    + done.
    + discriminate.
    + intros _. by exists y.
  - destruct (make_blobs_rows n 8) as (X & y & Hgen & HX & Hy).
    exists X, (Some y), s. repeat split.
    + unfold get_dataset. simpl.
      unfold mbind, Py_bind, bind, call, ret. by rewrite Hgen.
    + done.
    + discriminate.
    + intros _. by exists y.
  - destruct (get_dataset_uniform "No Structure" n s)
      as (X & g & _ & Hrun & HX).
    { apply (bool_decide_unpack _). by vm_compute. }
    exists X, None, (set_random_state g s). repeat split; try done.
    rewrite !elem_of_cons, elem_of_nil. by intros [| [| []]].
Qed.

(** C9: with any name other than 'Noisy Circles', 'Noisy Moons' and 'Blobs',
    whether or not it is 'No Structure', the generator takes its last branch:
    it returns what [np.random.rand(n_samples, 2)] returns, with [None] for
    the labels; for a sample count [n] these are [n] points.  Nothing is
    printed and only the random generator's state moves. *)
Theorem get_dataset_fallthrough (dataset : string) (n : nat) (s : process) :
  dataset ∉ ["Noisy Circles"; "Noisy Moons"; "Blobs"] ->
  exists X g,
    random_rand2 (Z.of_nat n) (random_state s) = (Ok X, g)
    /\ get_dataset dataset (Z.of_nat n) s = (Ok (X, None), set_random_state g s)
    /\ length X = n
    /\ stdout (snd (get_dataset dataset (Z.of_nat n) s)) = stdout s.
Proof.
  intros Hname.
  destruct (get_dataset_uniform dataset n s Hname) as (X & g & Hrand & Hrun & HX).
  exists X, g. repeat split; try done. by rewrite Hrun.
Qed.

End Datasets.

(** ** The callbacks *)

Section Callbacks.
Context {L : Library}.

Ltac run :=
  unfold mbind, Py_bind, bind, call, call_random, ret, gets, modify,
    source_data_setitem; simpl.

(** run the next framed call of the goal and split on its outcome *)
Ltac step H :=
  match goal with
  | |- context [get_dataset ?d ?n ?s] =>
      destruct (framed_get_dataset d n s) as (? & ? & ? & H & _)
  | |- context [clustering ?X ?a ?n ?s] =>
      destruct (framed_clustering X a n s) as (? & ? & ? & H & _)
  end;
  rewrite H;
  match type of H with _ = (?r, _) => destruct r as [[? ?] | ?] end;
  simpl.

(** The sample-count callback leaves the module's [X] and [y] as they were,
    whatever its outcome. *)
Lemma update_samples_globals (s : process) :
  global_X (snd (update_samples s)) = global_X s
  /\ global_y (snd (update_samples s)) = global_y s.
Proof.
  unfold update_samples. run.
  step Hd; [| done]. step Hc; [| done].
  by destruct (recolor _).
Qed.

(** Its sibling, the dataset callback, rebinds them. *)
Lemma update_dataset_globals (s : process) :
  fst (update_dataset s) = Ok tt ->
  exists X y s0 Xs y_pred s1,
    get_dataset (dataset_select_value s) (int (samples_slider_value s)) s
    = (Ok (X, y), s0)
    /\ clustering X (algorithm_select_value s) (int (clusters_slider_value s))
         (set_global_y y (set_global_X X s0))
       = (Ok (Xs, y_pred), s1)
    /\ global_X (snd (update_dataset s)) = Xs
    /\ global_y (snd (update_dataset s)) = y.
Proof.
  unfold update_dataset. run.
  step Hd; [| discriminate]. step Hc; [| discriminate].
  destruct (recolor _); [| discriminate]. simpl. intros _.
  eexists _, _, _, _, _, _. split; [reflexivity |]. simpl.
  split; [exact Hc |]. done.
Qed.

(** C3, what the code does: the sample-count callback declares no global, so
    the PointSet it regenerates from the dataset's name and the new sample
    count is bound to a local [X]. When the callback returns, the data
    source's x, y and colors columns hold the regenerated, standardized and
    recoloured data, while the module's [X] and [y] are what they were
    before. *)
Theorem update_samples_keeps_global_X (new : float) (s : process) :
  let r := on_change (samples_slider_change new) s in
  global_X (snd r) = global_X s
  /\ global_y (snd r) = global_y s
  /\ match fst r with
     | Ok _ =>
         exists X y s0 Xs y_pred s1 colors,
           get_dataset (dataset_select_value s) (int new)
             (set_samples_slider_value new s) = (Ok (X, y), s0)
           /\ clustering X (algorithm_select_value s)
                (int (clusters_slider_value s)) s0 = (Ok (Xs, y_pred), s1)
           /\ recolor y_pred = Ok colors
           /\ source_data (snd r) =
              <["colors" := Strings colors]>
                (<["y" := Floats (column1 Xs)]>
                   (<["x" := Floats (column0 Xs)]> (source_data s)))
     | Raise _ => True
     end.
Proof.
  cbv zeta.
  change (on_change (samples_slider_change new) s)
    with (update_samples (set_samples_slider_value new s)).
  pose proof (update_samples_globals (set_samples_slider_value new s))
    as [HX Hy].
  split; [exact HX |]. split; [exact Hy |]. clear HX Hy.
  unfold update_samples. run.
  step Hd; [| done]. step Hc; [| done].
  destruct (recolor _) as [colors |] eqn:Hcolors; [| done]. simpl.
  eexists _, _, _, _, _, _, colors. split; [reflexivity |].
  split; [exact Hc |]. by split.
Qed.

(** C2: the outcome of [clustering] for 'DBSCAN' is the same for any two
    cluster counts; and with 'DBSCAN' selected, moving the cluster-count
    slider to one value or to another gives the same outcome and the same
    state (labels, colours, columns), the slider's own value apart. *)
Theorem DBSCAN_ignores_cluster_count (X : PointSet) (c1 c2 : Z)
    (v1 v2 : float) (s : process) :
  clustering X "DBSCAN" c1 s = clustering X "DBSCAN" c2 s
  /\ let selected := set_algorithm_select_value "DBSCAN" s in
     let r1 := on_change (clusters_slider_change v1) selected in
     on_change (clusters_slider_change v2) selected =
     (fst r1, set_clusters_slider_value v2 (snd r1)).
Proof.
  split; [apply clustering_DBSCAN |]. cbv zeta.
  unfold on_change, update_clusters. run.
  rewrite (clustering_DBSCAN _ (int v2) (int v1)).
  match goal with
  | |- context [clustering ?X ?a ?n ?s1] =>
      destruct (framed_clustering X a n s1) as (r & g & out & H1 & H2)
  end.
  rewrite H2 by done. rewrite H2 by done.
  destruct r as [[Xs y_pred] | e]; simpl; [| done].
  by destruct (recolor y_pred).
Qed.

(** C7: the algorithm callback returns once [clustering] and the recolor step
    have returned, and then the plot's title is the newly selected algorithm's
    name; the dataset callback leaves the title as it was, whatever its
    outcome, and of the data source it touches only the columns x, y and
    colors. *)
Theorem plot_title_after_change (new : string) (s : process) :
  let a := on_change (algorithm_select_change new) s in
  let d := on_change (dataset_select_change new) s in
  (fst a = Ok tt <->
   exists Xs y_pred s1 colors,
     clustering (global_X s) new (int (clusters_slider_value s))
       (set_algorithm_select_value new s) = (Ok (Xs, y_pred), s1)
     /\ recolor y_pred = Ok colors)
  /\ match fst a with
     | Ok _ => plot_title (snd a) = Some new
     | Raise _ => plot_title (snd a) = plot_title s
     end
  /\ plot_title (snd d) = plot_title s
  /\ forall key, key ∉ ["x"; "y"; "colors"] ->
       source_data (snd d) !! key = source_data s !! key.
Proof.
  cbv zeta. split; [| split; [| split]].
  - unfold on_change, update_algorithm. run. step Hc.
    + destruct (recolor _) as [colors |] eqn:Hcolors; simpl.
      * split; [| done]. intros _. by eexists _, _, _, colors.
      * split; [discriminate |].
        intros (? & ? & ? & ? & [= <- <- <-] & Hcol). congruence.
    + split; [discriminate |]. by intros (? & ? & ? & ? & [=] & _).
  - unfold on_change, update_algorithm. run. step Hc; [| done].
    by destruct (recolor _).
  - unfold on_change, update_dataset. run.
    step Hd; [| done]. step Hc; [| done]. by destruct (recolor _).
  - intros key. rewrite !not_elem_of_cons. intros (Hx & Hy & Hcolors & _).
    unfold on_change, update_dataset. run.
    step Hd; [| done]. step Hc; [| done].
    destruct (recolor _); simpl; [| done].
    by rewrite !lookup_insert_ne.
Qed.

End Callbacks.

(** * Further properties of the script *)

(** ** The palette *)

Lemma lookup_concat_replicate {A : Type} (l : list A) (k j : nat) :
  (j < k * length l)%nat ->
  concat (replicate k l) !! j = l !! (j mod length l)%nat.
Proof.
  revert j. induction k as [| k IH]; intros j Hj; [lia |].
  simpl. destruct (decide (j < length l)%nat) as [Hlt | Hge].
  - rewrite lookup_app_l by done. by rewrite Nat.mod_small.
  - rewrite lookup_app_r by lia. rewrite IH by lia. f_equal.
    assert (length l <> 0)%nat by lia.
    replace j with ((j - length l) + 1 * length l)%nat at 2 by lia.
    by rewrite Nat.Div0.mod_add.
Qed.

Section Palette.
Context {L : Library} {LC : LibraryContract L}.

Lemma getitem_spectral_mod (i : Z) :
  -120 <= i <= 119 ->
  exists c, Spectral6 !! Z.to_nat (i mod 6) = Some c
            /\ getitem spectral i = Ok c.
Proof.
  intros Hi. destruct (getitem_spectral i Hi) as [c Hc]. exists c.
  split; [| done]. revert Hc. unfold getitem. cbv zeta.
  rewrite spectral_length.
  destruct (decide _) as [_ | ]; [| discriminate].
  destruct (spectral !! _) as [c' |] eqn:Hlook; [| discriminate].
  intros [= <-]. unfold spectral in Hlook.
  rewrite lookup_concat_replicate in Hlook
    by (rewrite Spectral6_length; destruct (decide (i < 0)); lia).
  rewrite Spectral6_length in Hlook. rewrite <- Hlook. f_equal.
  destruct (decide (i < 0)).
  - replace (i mod 6) with ((i + Z.of_nat 120) mod 6)
      by (replace (i + Z.of_nat 120) with (i + 20 * 6) by lia;
          apply Z.mod_add; lia).
    rewrite Z2Nat.inj_mod by lia. reflexivity.
  - rewrite Z2Nat.inj_mod by lia. reflexivity.
Qed.

(** X1: the colour of a label depends on the label modulo 6 only: label [i]
    in [-120, 119] gets entry [i mod 6] of the base palette, so labels that
    differ by a multiple of 6 are drawn alike. *)
Theorem recolor_period (i j : Z) :
  -120 <= i <= 119 -> -120 <= j <= 119 ->
  (exists c, Spectral6 !! Z.to_nat (i mod 6) = Some c /\ recolor [i] = Ok [c])
  /\ (i mod 6 = j mod 6 -> recolor [i] = recolor [j]).
Proof.
  intros Hi Hj.
  destruct (getitem_spectral_mod i Hi) as (c & Hc & Hgi).
  destruct (getitem_spectral_mod j Hj) as (d & Hd & Hgj).
  unfold recolor. simpl. rewrite Hgi, Hgj. split; [by exists c |].
  intros Hmod. rewrite Hmod in Hc. congruence.
Qed.

(** X2: the recolor step returns exactly on the LabelAssignments within
    [-120, 119]; on any other it raises, and [IndexError] is all it raises. *)
Theorem recolor_outcome (y_pred : list Z) :
  match recolor y_pred with
  | Ok colors =>
      Forall (fun i => -120 <= i <= 119) y_pred
      /\ length colors = length y_pred
  | Raise e =>
      e = IndexError /\ Exists (fun i => ~ (-120 <= i <= 119)) y_pred
  end.
Proof.
  destruct (recolor y_pred) as [colors | e] eqn:Hrun.
  - by apply recolor_Ok in Hrun as (? & ? & _).
  - destruct (decide (Forall (fun i => -120 <= i <= 119) y_pred))
      as [Hall | Hnot].
    + destruct (recolor_total y_pred Hall) as [colors Hc]. congruence.
    + apply not_Forall_Exists in Hnot; [| intros i; apply _].
      split; [| exact Hnot].
      apply Exists_exists in Hnot as (i & Hin & Hi).
      rewrite (recolor_Raise y_pred i Hin Hi) in Hrun. congruence.
Qed.

End Palette.

(** ** More on the dispatcher *)

Section DispatcherMore.
Context {L : Library}.

(** X3: [n_clusters] reaches the estimator in five branches only; for
    'AffinityPropagation', 'MeanShift' and 'DBSCAN' the outcome of
    [clustering], result and state, is the same for any two cluster
    counts. *)
Theorem cluster_count_ignored (X : PointSet) (algorithm : string)
    (c1 c2 : Z) (s : process) :
  algorithm ∈ ["AffinityPropagation"; "MeanShift"; "DBSCAN"] ->
  clustering X algorithm c1 s = clustering X algorithm c2 s.
Proof.
  rewrite !elem_of_cons, elem_of_nil. intros [-> | [-> | [-> | []]]];
    rewrite !clustering_run;
    by destruct (fst (prepare X unbound)) as [[[Xs bandwidth] C] | e].
Qed.

Lemma clustering_stdout (X : PointSet) (algorithm : string) (n_clusters : Z)
    (s : process) :
  stdout (snd (clustering X algorithm n_clusters s)) =
  match fst (prepare X s) with
  | Ok _ =>
      if decide (algorithm ∈ clustering_algorithms) then stdout s
      else stdout s ++ [notice]
  | Raise _ => stdout s
  end.
Proof.
  rewrite clustering_run, (prepare_run X s). simpl fst.
  destruct (fst (prepare X unbound)) as [[[Xs bandwidth] C] | e]; [| done].
  assert (forall model s1,
             stdout
               (snd
                  (match fit model Xs (random_state s1) with
                   | (Ok F, g) =>
                       match labels_ F with
                       | Some labels =>
                           (Ok (Xs, labels), set_random_state g s1)
                       | None =>
                           match predict F Xs with
                           | Ok y_pred =>
                               (Ok (Xs, y_pred), set_random_state g s1)
                           | Raise e => (Raise e, set_random_state g s1)
                           end
                       end
                   | (Raise e, g) => (Raise e, set_random_state g s1)
                   end)) = stdout s1) as Hfit.
  { intros model s1. destruct (fit model Xs _) as [[F | e] g]; [| done].
    destruct (labels_ F); [done |]. by destruct (predict F Xs). }
  destruct (decide _) as [Hin | Hout].
  - destruct (select_model_known algorithm n_clusters bandwidth C s Hin)
      as [model ->]. apply Hfit.
  - rewrite (select_model_unknown _ _ _ _ _ Hout). by rewrite Hfit.
Qed.

(** X4: [clustering] reads and writes nothing of the session but numpy's
    generator and the printed lines: the module's [X] and [y], the data
    source, the title and the widgets are as before in every outcome; and it
    prints, one line, only for a name outside the eight listed ones. *)
Theorem clustering_footprint (X : PointSet) (algorithm : string)
    (n_clusters : Z) (s : process) :
  let s' := snd (clustering X algorithm n_clusters s) in
  (global_X s' = global_X s /\ global_y s' = global_y s
   /\ source_data s' = source_data s /\ plot_title s' = plot_title s
   /\ algorithm_select_value s' = algorithm_select_value s
   /\ dataset_select_value s' = dataset_select_value s
   /\ samples_slider_value s' = samples_slider_value s
   /\ clusters_slider_value s' = clusters_slider_value s)
  /\ (algorithm ∈ clustering_algorithms -> stdout s' = stdout s)
  /\ (stdout s' = stdout s \/ stdout s' = stdout s ++ [notice]).
Proof.
  cbv zeta. split; [apply framed_rest, framed_clustering |].
  rewrite clustering_stdout.
  destruct (fst (prepare X s)); [| by split; [| left]].
  destruct (decide _); split; try done; [by left | by right].
Qed.

(** X5: bandwidth and connectivity are computed before the name is looked
    at. When the scaler, [estimate_bandwidth], [kneighbors_graph] or the
    symmetrization raises, [clustering] raises the same for every algorithm
    name, also for those that use neither value, and the state is left as it
    was. *)
Theorem clustering_needs_preparation (X : PointSet) (e : exception)
    (s : process) :
  fst (prepare X s) = Raise e ->
  (fit_transform X = Raise e
   \/ exists Xs,
       fit_transform X = Ok Xs
       /\ (estimate_bandwidth Xs (3 # 10) = Raise e
           \/ kneighbors_graph Xs 10 false = Raise e
           \/ exists G, kneighbors_graph Xs 10 false = Ok G
                        /\ shape G <> prod_swap (shape G) /\ e = ValueError))
  /\ forall algorithm n_clusters,
      clustering X algorithm n_clusters s = (Raise e, s).
Proof.
  intros Hprep. split.
  - revert Hprep. unfold prepare, mbind, Py_bind, bind, call, ret.
    destruct (fit_transform X) as [Xs |]; simpl; [| intros [= <-]; by left].
    intros Hprep. right. exists Xs. split; [done |]. revert Hprep.
    destruct (estimate_bandwidth Xs _) as [bandwidth |]; simpl;
      [| intros [= <-]; by left].
    destruct (kneighbors_graph Xs 10 false) as [G |]; simpl;
      [| intros [= <-]; right; by left].
    unfold sparse_add. simpl. destruct (decide _) as [| Hshape]; simpl;
      [discriminate |].
    intros [= <-]. right. right. by exists G.
  - intros algorithm n_clusters. rewrite clustering_run.
    rewrite prepare_run in Hprep. simpl in Hprep. by rewrite Hprep.
Qed.

Lemma clustering_Ok_standardized (X : PointSet) (algorithm : string)
    (n_clusters : Z) (s : process) (Xs : PointSet) (y_pred : list Z)
    (s' : process) :
  clustering X algorithm n_clusters s = (Ok (Xs, y_pred), s') ->
  fit_transform X = Ok Xs.
Proof.
  rewrite clustering_run.
  destruct (fst (prepare X unbound)) as [[[X1 bandwidth] C] | e] eqn:Hprep;
    [| discriminate].
  assert (prepare X unbound = (Ok (X1, bandwidth, C), unbound)) as Hp
    by (by rewrite prepare_run, Hprep).
  apply prepare_Ok in Hp as (_ & HX & _).
  destruct (select_model _ _ _ _ s) as [[model | ?] s1]; [| discriminate].
  destruct (fit model X1 _) as [[F | ?] g]; [| discriminate].
  destruct (labels_ F); [congruence |].
  destruct (predict F X1); [congruence | discriminate].
Qed.

End DispatcherMore.

(** ** More on the callbacks *)

Section CallbacksMore.
Context {L : Library}.

Ltac run :=
  unfold mbind, Py_bind, bind, call, call_random, ret, gets, modify,
    source_data_setitem; simpl.

Ltac step H :=
  match goal with
  | |- context [get_dataset ?d ?n ?s] =>
      destruct (framed_get_dataset d n s) as (? & ? & ? & H & _)
  | |- context [clustering ?X ?a ?n ?s] =>
      destruct (framed_clustering X a n s) as (? & ? & ? & H & _)
  end;
  rewrite H;
  match type of H with _ = (?r, _) => destruct r as [[? ?] | ?] end;
  simpl.

(** X6: no callback writes a widget: after an event, in every outcome, the
    four widgets hold what they held before, the one the user moved holding
    its new value; and only a change of algorithm can change the title. *)
Theorem callbacks_keep_widgets (e : event) (s : process) :
  let s' := snd (on_change e s) in
  widgets s' =
  match e with
  | algorithm_select_change new =>
      (new, dataset_select_value s, samples_slider_value s,
       clusters_slider_value s)
  | dataset_select_change new =>
      (algorithm_select_value s, new, samples_slider_value s,
       clusters_slider_value s)
  | clusters_slider_change new =>
      (algorithm_select_value s, dataset_select_value s,
       samples_slider_value s, new)
  | samples_slider_change new =>
      (algorithm_select_value s, dataset_select_value s, new,
       clusters_slider_value s)
  end
  /\ match e with
     | algorithm_select_change _ => True
     | _ => plot_title s' = plot_title s
     end.
Proof.
  cbv zeta. unfold widgets.
  destruct e as [new | new | new | new]; unfold on_change.
  - unfold update_algorithm. run. step Hc; [| done].
    by destruct (recolor _).
  - unfold update_dataset. run. step Hd; [| done]. step Hc; [| done].
    by destruct (recolor _).
  - unfold update_clusters. run. step Hc; [| done].
    by destruct (recolor _).
  - unfold update_samples. run. step Hd; [| done]. step Hc; [| done].
    by destruct (recolor _).
Qed.

(** X7: after a change of algorithm, dataset or cluster count that returns,
    the plot's x and y columns are the two columns of the module's [X], which
    is then the standardized PointSet that was clustered. *)
Theorem plot_shows_global_X (e : event) (s : process) :
  (forall new, e <> samples_slider_change new) ->
  fst (on_change e s) = Ok tt ->
  let s' := snd (on_change e s) in
  source_data s' !! "x" = Some (Floats (column0 (global_X s')))
  /\ source_data s' !! "y" = Some (Floats (column1 (global_X s')))
  /\ exists X, fit_transform X = Ok (global_X s').
Proof.
  intros Hevent. cbv zeta.
  destruct e as [new | new | new | new]; unfold on_change;
    [| | | by destruct (Hevent new)].
  - unfold update_algorithm. run. step Hc; [| discriminate].
    destruct (recolor _); [| discriminate]. simpl. intros _.
    split; [by simplify_map_eq |]. split; [by simplify_map_eq |].
    eexists. eapply clustering_Ok_standardized, Hc.
  - unfold update_dataset. run. step Hd; [| discriminate].
    step Hc; [| discriminate].
    destruct (recolor _); [| discriminate]. simpl. intros _.
    split; [by simplify_map_eq |]. split; [by simplify_map_eq |].
    eexists. eapply clustering_Ok_standardized, Hc.
  - unfold update_clusters. run. step Hc; [| discriminate].
    destruct (recolor _); [| discriminate]. simpl. intros _.
    split; [by simplify_map_eq |]. split; [by simplify_map_eq |].
    eexists. eapply clustering_Ok_standardized, Hc.
Qed.

Lemma clustering_rest (X : PointSet) (algorithm : string) (n_clusters : Z)
    (s : process) (r : result (PointSet * list Z)) (s' : process) :
  clustering X algorithm n_clusters s = (r, s') ->
  global_X s' = global_X s /\ global_y s' = global_y s
  /\ source_data s' = source_data s /\ plot_title s' = plot_title s.
Proof.
  intros Hrun.
  pose proof (framed_rest _ s (framed_clustering X algorithm n_clusters))
    as Hrest.
  rewrite Hrun in Hrest. simpl in Hrest. tauto.
Qed.

(** X8: the module's [X] is rebound as soon as [clustering] returns, before
    the colours are looked up. When a label is outside the palette, the
    algorithm and cluster-count callbacks raise with [X] already replaced by
    the standardized PointSet, while the data source and the title are what
    they were. *)
Theorem recolor_failure_after_rebinding (s : process) (Xs : PointSet)
    (y_pred : list Z) (s1 : process) (e : exception) :
  clustering (global_X s) (algorithm_select_value s)
    (int (clusters_slider_value s)) s = (Ok (Xs, y_pred), s1) ->
  recolor y_pred = Raise e ->
  (fst (update_algorithm s) = Raise e
   /\ global_X (snd (update_algorithm s)) = Xs
   /\ source_data (snd (update_algorithm s)) = source_data s
   /\ plot_title (snd (update_algorithm s)) = plot_title s)
  /\ (fst (update_clusters s) = Raise e
      /\ global_X (snd (update_clusters s)) = Xs
      /\ source_data (snd (update_clusters s)) = source_data s
      /\ plot_title (snd (update_clusters s)) = plot_title s).
Proof.
  intros Hrun Hcolors.
  destruct (clustering_rest _ _ _ _ _ _ Hrun) as (_ & _ & Hsource & Htitle).
  split.
  - unfold update_algorithm. run. rewrite Hrun. simpl. by rewrite Hcolors.
  - unfold update_clusters. run. rewrite Hrun. simpl. by rewrite Hcolors.
Qed.

(** X9: the dataset callback binds the module's [X] and [y] to the generated
    dataset before it clusters. When [clustering] then raises, the callback
    raises with [X] holding the raw, not standardized, points and [y] their
    labels, and with the data source and the title untouched. *)
Theorem update_dataset_failure_after_rebinding (s : process) (X : PointSet)
    (y : option (list Z)) (s0 : process) (e : exception) (s1 : process) :
  get_dataset (dataset_select_value s) (int (samples_slider_value s)) s
  = (Ok (X, y), s0) ->
  clustering X (algorithm_select_value s) (int (clusters_slider_value s))
    (set_global_y y (set_global_X X s0)) = (Raise e, s1) ->
  fst (update_dataset s) = Raise e
  /\ global_X (snd (update_dataset s)) = X
  /\ global_y (snd (update_dataset s)) = y
  /\ source_data (snd (update_dataset s)) = source_data s
  /\ plot_title (snd (update_dataset s)) = plot_title s.
Proof.
  intros Hdata Hrun.
  destruct (clustering_rest _ _ _ _ _ _ Hrun) as (HX & Hy & Hsource & Htitle).
  pose proof (framed_rest _ s (framed_get_dataset (dataset_select_value s)
                                 (int (samples_slider_value s)))) as Hrest.
  rewrite Hdata in Hrest. simpl in Hrest, HX, Hy, Hsource, Htitle.
  destruct Hrest as (_ & _ & Hsource0 & Htitle0 & _).
  unfold update_dataset. run. rewrite Hdata. simpl. rewrite Hrun. simpl.
  repeat split; congruence.
Qed.

(** X10: selecting a name outside the eight listed ones runs the algorithm
    callback as for 'MiniBatchKMeans': same outcome, same [X], same columns
    and same generator state; but the title then shows the unlisted name, and
    the notice has been printed. *)
Theorem unknown_algorithm_titled (algorithm : string) (s : process) :
  algorithm ∉ clustering_algorithms ->
  let u := on_change (algorithm_select_change algorithm) s in
  let k := on_change (algorithm_select_change "MiniBatchKMeans") s in
  fst u = fst k
  /\ global_X (snd u) = global_X (snd k)
  /\ source_data (snd u) = source_data (snd k)
  /\ random_state (snd u) = random_state (snd k)
  /\ match fst u with
     | Ok _ =>
         plot_title (snd u) = Some algorithm
         /\ plot_title (snd k) = Some "MiniBatchKMeans"
         /\ stdout (snd u) = stdout s ++ [notice]
         /\ stdout (snd k) = stdout s
     | Raise _ => True
     end.
Proof.
  intros Hunknown. cbv zeta. unfold on_change, update_algorithm. run.
  rewrite !clustering_run.
  destruct (fst (prepare (global_X s) unbound)) as [[[Xs bandwidth] C] | e];
    simpl; [| done].
  rewrite (select_model_unknown _ _ _ _ _ Hunknown).
  simpl.
  destruct (fit _ Xs (random_state s)) as [[F | e] g]; simpl; [| done].
  destruct (labels_ F) as [labels |]; simpl.
  - by destruct (recolor labels).
  - destruct (predict F Xs) as [y_pred | e]; simpl; [| done].
    by destruct (recolor y_pred).
Qed.

(** X11: what the module's body leaves when it returns: the module's [X] is the
    standardized circles dataset of 1500 samples drawn from seed 0 and [y]
    its labels; the plot's colours are looked up from those ground-truth
    labels, no estimator having been fitted (the generator is where
    [make_circles] left it); the title is unset and the widgets show
    'MiniBatchKMeans', 'Noisy Circles', 1500 and 2. *)
Theorem startup_state (s0 : process) :
  match startup s0 with
  | (Ok _, s) =>
      exists X y g Xs colors,
        make_circles 1500 (1 # 2) (1 # 20) (random_seed 0) = (Ok (X, y), g)
        /\ fit_transform X = Ok Xs
        /\ recolor y = Ok colors
        /\ global_X s = Xs /\ global_y s = Some y
        /\ source_data s =
           <["x" := Floats (column0 Xs)]>
             (<["y" := Floats (column1 Xs)]>
                (<["colors" := Strings colors]> ∅))
        /\ plot_title s = None
        /\ widgets s =
           ("MiniBatchKMeans", "Noisy Circles", (1500 # 1)%Q, (2 # 1)%Q)
        /\ random_state s = g
        /\ stdout s = stdout s0
  | (Raise _, _) => True
  end.
Proof.
  unfold startup. run.
  destruct (make_circles 1500 _ _ (random_seed 0)) as [[[X y] | e] g] eqn:Hgen;
    simpl; [| done].
  rewrite prepare_run.
  destruct (fst (prepare X unbound)) as [[[Xs bandwidth] C] | e] eqn:Hprep;
    simpl; [| done].
  destruct (recolor y) as [colors |] eqn:Hcolors; simpl; [| done].
  exists X, y, g, Xs, colors. repeat split; try done.
  eapply (prepare_Ok X Xs bandwidth C unbound unbound).
  by rewrite prepare_run, Hprep.
Qed.

(** X13: the sample-count callback draws what the dataset callback draws: from
    the same state both have the same outcome and leave the same data source,
    title, widgets, generator and output; the module's [X] and [y], which
    only the dataset callback rebinds, are all that can differ. *)
Theorem update_samples_draws_like_update_dataset (s : process) :
  let d := update_dataset s in
  let m := update_samples s in
  fst m = fst d
  /\ source_data (snd m) = source_data (snd d)
  /\ plot_title (snd m) = plot_title (snd d)
  /\ widgets (snd m) = widgets (snd d)
  /\ random_state (snd m) = random_state (snd d)
  /\ stdout (snd m) = stdout (snd d)
  /\ global_X (snd m) = global_X s /\ global_y (snd m) = global_y s.
Proof.
  cbv zeta. unfold update_dataset, update_samples, widgets. run.
  destruct (framed_get_dataset (dataset_select_value s)
              (int (samples_slider_value s)) s)
    as (r & g & out & Hd & _).
  rewrite Hd. destruct r as [[X y] | e]; simpl; [| done].
  match goal with
  | |- context [clustering X ?a ?n ?s0] =>
      destruct (framed_clustering X a n s0) as (r & g' & out' & Hc & Hc')
  end.
  rewrite Hc. rewrite Hc' by done.
  destruct r as [[Xs y_pred] | e]; simpl; [| done].
  by destruct (recolor y_pred).
Qed.

(** X14: the callbacks use a slider's value through [int] only: two positions
    of the cluster-count slider, or of the sample-count slider, with the same
    integer part lead to the same outcome and the same state, the slider's
    own value apart. *)
Theorem slider_fraction_ignored (v1 v2 : float) (s : process) :
  int v1 = int v2 ->
  (let r1 := on_change (clusters_slider_change v1) s in
   on_change (clusters_slider_change v2) s =
   (fst r1, set_clusters_slider_value v2 (snd r1)))
  /\ (let r1 := on_change (samples_slider_change v1) s in
      on_change (samples_slider_change v2) s =
      (fst r1, set_samples_slider_value v2 (snd r1))).
Proof.
  intros Hint. cbv zeta. split; unfold on_change.
  - unfold update_clusters. run. rewrite Hint.
    match goal with
    | |- context [clustering ?X ?a ?n (set_clusters_slider_value v1 s)] =>
        destruct (framed_clustering X a n (set_clusters_slider_value v1 s))
          as (r & g & out & _ & Hc)
    end.
    rewrite !Hc by done.
    destruct r as [[Xs y_pred] | e]; simpl; [| done].
    by destruct (recolor y_pred).
  - unfold update_samples. run. rewrite Hint.
    match goal with
    | |- context [get_dataset ?d ?n (set_samples_slider_value v1 s)] =>
        destruct (framed_get_dataset d n (set_samples_slider_value v1 s))
          as (r & g & out & _ & Hd)
    end.
    rewrite !Hd by done.
    destruct r as [[X y] | e]; simpl; [| done].
    match goal with
    | |- context [clustering X ?a ?n ?s0] =>
        destruct (framed_clustering X a n s0) as (r & g' & out' & _ & Hc)
    end.
    rewrite !Hc by done.
    destruct r as [[Xs y_pred] | e]; simpl; [| done].
    by destruct (recolor y_pred).
Qed.

End CallbacksMore.

Section CallbacksContract.
Context {L : Library} {LC : LibraryContract L}.

Ltac run :=
  unfold mbind, Py_bind, bind, call, call_random, ret, gets, modify,
    source_data_setitem; simpl.

Ltac step H :=
  match goal with
  | |- context [get_dataset ?d ?n ?s] =>
      destruct (framed_get_dataset d n s) as (? & ? & ? & H & _)
  | |- context [clustering ?X ?a ?n ?s] =>
      destruct (framed_clustering X a n s) as (? & ? & ? & H & _)
  end;
  rewrite H;
  match type of H with _ = (?r, _) => destruct r as [[? ?] | ?] end;
  simpl.

Lemma clustering_Ok_rows (X : PointSet) (algorithm : string)
    (n_clusters : Z) (s : process) (Xs : PointSet) (y_pred : list Z)
    (s' : process) :
  clustering X algorithm n_clusters s = (Ok (Xs, y_pred), s') ->
  length y_pred = length Xs.
Proof.
  rewrite clustering_run.
  destruct (fst (prepare X unbound)) as [[[X1 bandwidth] C] | e];
    [| discriminate].
  destruct (select_model _ _ _ _ s) as [[model | ?] s1]; [| discriminate].
  destruct (fit model X1 _) as [[F | ?] g] eqn:Hfit; [| discriminate].
  destruct (labels_ F) as [labels |] eqn:Hlabels.
  - intros [= <- <- _]. eapply labels_rows; eassumption.
  - destruct (predict F X1) as [y |] eqn:Hy; [| discriminate].
    intros [= <- <- _]. eapply predict_rows; eassumption.
Qed.

(** X12: whichever control the user moves, when the callback returns the data
    source holds an x, a y and a colors column of one and the same length:
    a colour for every point drawn. *)
Theorem columns_same_length (e : event) (s : process) :
  fst (on_change e s) = Ok tt ->
  exists xs ys colors,
    source_data (snd (on_change e s)) !! "x" = Some (Floats xs)
    /\ source_data (snd (on_change e s)) !! "y" = Some (Floats ys)
    /\ source_data (snd (on_change e s)) !! "colors" = Some (Strings colors)
    /\ length xs = length ys
    /\ length ys = length colors.
Proof.
  assert (forall Xs y_pred colors,
             length y_pred = length Xs -> recolor y_pred = Ok colors ->
             length (column0 Xs) = length (column1 Xs)
             /\ length (column1 Xs) = length colors) as Hlen.
  { intros Xs y_pred colors Hrows Hcolors.
    apply recolor_Ok in Hcolors as (Hc & _).
    unfold column0, column1. rewrite !length_fmap. split; congruence. }
  destruct e as [new | new | new | new]; unfold on_change.
  - unfold update_algorithm. run. step Hc; [| discriminate].
    destruct (recolor _) as [colors |] eqn:Hcolors; [| discriminate].
    simpl. intros _. eexists _, _, colors.
    repeat (split; [by simplify_map_eq |]).
    eapply Hlen; [eapply clustering_Ok_rows, Hc | done].
  - unfold update_dataset. run. step Hd; [| discriminate].
    step Hc; [| discriminate].
    destruct (recolor _) as [colors |] eqn:Hcolors; [| discriminate].
    simpl. intros _. eexists _, _, colors.
    repeat (split; [by simplify_map_eq |]).
    eapply Hlen; [eapply clustering_Ok_rows, Hc | done].
  - unfold update_clusters. run. step Hc; [| discriminate].
    destruct (recolor _) as [colors |] eqn:Hcolors; [| discriminate].
    simpl. intros _. eexists _, _, colors.
    repeat (split; [by simplify_map_eq |]).
    eapply Hlen; [eapply clustering_Ok_rows, Hc | done].
  - unfold update_samples. run. step Hd; [| discriminate].
    step Hc; [| discriminate].
    destruct (recolor _) as [colors |] eqn:Hcolors; [| discriminate].
    simpl. intros _. eexists _, _, colors.
    repeat (split; [by simplify_map_eq |]).
    eapply Hlen; [eapply clustering_Ok_rows, Hc | done].
Qed.

End CallbacksContract.
(** * Runs on the small library *)

#[local] Existing Instance Stub.library.

(** [Hrun] says that a run raised which, evaluated, returns *)
Ltac returned Hrun :=
  exfalso;
  match type of Hrun with
  | ?run = _ =>
      let Hok := fresh "Hok" in
      assert (is_Ok (fst run) = true) as Hok by (vm_compute; reflexivity);
      rewrite Hrun in Hok; discriminate Hok
  end.

(** C4 as stated, for every LabelAssignment, fails: label 120 is past the end
    of the 120-entry palette array and the step raises [IndexError]. *)
Lemma recolor_label_120_raises :
  ~ (forall (L : Library), LibraryContract L ->
     forall y_pred : list Z,
       exists colors, recolor y_pred = Ok colors
                      /\ length colors = length y_pred
                      /\ Forall (fun c => c ∈ Spectral6) colors).
Proof.
  intros H. destruct (H Stub.library _ [120]) as (colors & Hc & _).
  vm_compute in Hc. discriminate.
Qed.

Lemma recolor_palette_witness :
  Forall (fun i => -120 <= i <= 119) [0; 1; 7; -1; 119]
  /\ (@spectral Stub.library = concat (replicate 20 Spectral6)
      /\ length (@Spectral6 Stub.library) = 6%nat
      /\ exists colors,
          recolor [0; 1; 7; -1; 119] = Ok colors
          /\ length colors = length [0; 1; 7; -1; 119]
          /\ Forall2 (fun i c => getitem spectral i = Ok c)
               [0; 1; 7; -1; 119] colors
          /\ Forall (fun c => c ∈ Spectral6) colors).
Proof.
  assert (Forall (fun i => -120 <= i <= 119) [0; 1; 7; -1; 119]) as Hall
    by (repeat constructor; lia).
  split; [exact Hall |].
  exact (recolor_palette (L := Stub.library) [0; 1; 7; -1; 119] Hall).
Defined.

Lemma recolor_negative_labels_witness :
  (exists c, last (@Spectral6 Stub.library) = Some c /\ recolor [-1] = Ok [c])
  /\ forall y_pred : list Z,
      Forall (fun i => -120 <= i <= 119) y_pred ->
      exists colors, recolor y_pred = Ok colors
                     /\ length colors = length y_pred.
Proof. exact (recolor_negative_labels (L := Stub.library)). Defined.

Example recolor_noise_label :
  @recolor Stub.library [0; -1; 1; -120] =
  Ok ["#3288bd"; "#d53e4f"; "#99d594"; "#3288bd"].
Proof. reflexivity. Qed.

Lemma clustering_unknown_algorithm_witness :
  ("KMeans" ∉ clustering_algorithms)
  /\ (let s := Stub.session in
      let known := clustering (global_X s) "MiniBatchKMeans" 3 s in
      let unknown := clustering (global_X s) "KMeans" 3 s in
      fst unknown = fst known
      /\ stdout (snd known) = stdout s
      /\ match fst (prepare (global_X s) s) with
         | Ok _ => snd unknown = set_stdout (stdout s ++ [notice]) (snd known)
         | Raise _ => snd unknown = snd known
         end
      /\ forall r, fst unknown = Ok r ->
           stdout (snd unknown) = stdout s ++ [notice]).
Proof.
  assert ("KMeans" ∉ clustering_algorithms) as Hname
    by (apply (bool_decide_unpack _); by vm_compute).
  split; [exact Hname |].
  exact (clustering_unknown_algorithm
           (global_X Stub.session) "KMeans" 3 Stub.session Hname).
Defined.

Example clustering_unknown_prints :
  let r := clustering (global_X Stub.session) "KMeans" 3 Stub.session in
  fst r = fst (clustering (global_X Stub.session) "MiniBatchKMeans" 3
                 Stub.session)
  /\ match fst r with
     | Ok (_, y_pred) => y_pred = [0; 1; 2; 0; 1; 2; 0; 1; 2; 0; 1; 2]
     | Raise _ => False
     end
  /\ stdout (snd r) = ["No Algorithm selected. Default is MiniBatchKMeans"].
Proof. cbv zeta. split; [| split]; by vm_compute. Qed.

Lemma get_dataset_rows_witness :
  ("Noisy Moons" ∈ datasets_names)
  /\ exists X y s',
      get_dataset "Noisy Moons" (Z.of_nat 5) Stub.session = (Ok (X, y), s')
      /\ length X = 5%nat
      /\ ("Noisy Moons" = "No Structure" -> y = None)
      /\ ("Noisy Moons" ∈ ["Noisy Circles"; "Noisy Moons"; "Blobs"] ->
          exists labels, y = Some labels /\ length labels = 5%nat).
Proof.
  assert ("Noisy Moons" ∈ datasets_names) as Hname
    by (apply (bool_decide_unpack _); by vm_compute).
  split; [exact Hname |].
  exact (get_dataset_rows "Noisy Moons" 5 Stub.session Hname).
Defined.

Example get_dataset_no_structure :
  match get_dataset "No Structure" 5 Stub.session with
  | (Ok (X, y), s') => length X = 5%nat /\ y = None /\ stdout s' = []
  | (Raise _, _) => False
  end.
Proof. by vm_compute. Qed.

Lemma get_dataset_fallthrough_witness :
  ("Swiss Roll" ∉ ["Noisy Circles"; "Noisy Moons"; "Blobs"])
  /\ exists X g,
      random_rand2 (Z.of_nat 5) (random_state Stub.session) = (Ok X, g)
      /\ get_dataset "Swiss Roll" (Z.of_nat 5) Stub.session =
         (Ok (X, None), set_random_state g Stub.session)
      /\ length X = 5%nat
      /\ stdout (snd (get_dataset "Swiss Roll" (Z.of_nat 5) Stub.session)) =
         stdout Stub.session.
Proof.
  assert ("Swiss Roll" ∉ ["Noisy Circles"; "Noisy Moons"; "Blobs"]) as Hname
    by (apply (bool_decide_unpack _); by vm_compute).
  split; [exact Hname |].
  exact (get_dataset_fallthrough "Swiss Roll" 5 Stub.session Hname).
Defined.

Lemma clustering_returns_witness :
  exists Xs y_pred s',
    clustering (global_X Stub.session) "Birch" 3 Stub.session =
    (Ok (Xs, y_pred), s')
    /\ length Xs = length (global_X Stub.session)
    /\ length y_pred = length (global_X Stub.session).
Proof.
  destruct (clustering (global_X Stub.session) "Birch" 3 Stub.session)
    as [[[Xs y_pred] | e] s'] eqn:Hrun; [| returned Hrun].
  exists Xs, y_pred, s'. split; [reflexivity |].
  exact (proj2 (clustering_returns _ _ _ _ _ _ _) Hrun).
Defined.

Lemma connectivity_symmetric_witness :
  exists Xs bandwidth C s1,
    ("Ward" = "Ward" \/ "Ward" = "AgglomerativeClustering")
    /\ prepare (global_X Stub.session) Stub.session
       = (Ok (Xs, bandwidth, C), s1)
    /\ transpose C = C
    /\ (forall i j, entry C i j = entry C j i)
    /\ exists linkage affinity,
        select_model "Ward" 3 bandwidth C s1 =
        (Ok (AgglomerativeClustering 3 linkage affinity C), s1).
Proof.
  destruct (prepare (global_X Stub.session) Stub.session)
    as [[[[Xs bandwidth] C] | e] s1] eqn:Hrun; [| returned Hrun].
  exists Xs, bandwidth, C, s1.
  split; [by left |]. split; [reflexivity |].
  destruct (connectivity_symmetric (global_X Stub.session) "Ward" 3
              Stub.session Xs bandwidth C s1 (or_introl eq_refl) Hrun)
    as (_ & Hsym & Hentry & linkage & affinity & Hmodel & _).
  split; [exact Hsym |]. split; [exact Hentry |].
  exists linkage, affinity. exact Hmodel.
Defined.

(** The graph over the following ten indices is not symmetric on thirteen
    points; its average with its transpose is. *)
Example ring_graph_symmetrized :
  match fst (Stub.rand_rows 13 5) with
  | X =>
      match Stub.ring_graph X 10 false, fst (prepare X Stub.session) with
      | Ok G, Ok (_, _, C) =>
          entry G 0 1 = 1%Q /\ entry G 1 0 = 0%Q
          /\ entry C 0 1 = (1 # 2)%Q /\ entry C 1 0 = (1 # 2)%Q
          /\ (entry C 0 5 == 1)%Q /\ (entry C 5 0 == 1)%Q
      | _, _ => False
      end
  end.
Proof. by vm_compute. Qed.

(** Both ways of reading the labels: [Birch] has no [labels_] on this
    library and is asked to [predict]; 'DBSCAN' labels every point as noise
    and each gets the palette's last colour. *)
Example labels_either_way :
  match fst (clustering (global_X Stub.session) "Birch" 3 Stub.session),
        fst (clustering (global_X Stub.session) "DBSCAN" 3 Stub.session) with
  | Ok (_, by_predict), Ok (_, by_labels) =>
      by_predict = [0; 1; 2; 0; 1; 2; 0; 1; 2; 0; 1; 2]
      /\ by_labels = replicate 12 (-1)
  | _, _ => False
  end
  /\ source_data
       (snd (on_change (algorithm_select_change "DBSCAN") Stub.session))
     !! "colors" = Some (Strings (replicate 12 "#d53e4f"))
  /\ plot_title
       (snd (on_change (algorithm_select_change "DBSCAN") Stub.session))
     = Some "DBSCAN"
  /\ plot_title
       (snd (on_change (dataset_select_change "Noisy Moons") Stub.session))
     = None.
Proof. split; [| split; [| split]]; by vm_compute. Qed.
(** The session as the script starts it, then the sample-count slider moved
    to 2000: the plot shows 2000 points while the module's [X] still has
    1500; the next change of algorithm clusters those 1500 and the plot is
    back to 1500 points with the slider at 2000. *)
Example samples_slider_moved :
  let started := startup unbound in
  let moved := on_change (samples_slider_change (2000 # 1)) (snd started) in
  let then_algorithm :=
    on_change (algorithm_select_change "DBSCAN") (snd moved) in
  fst started = Ok tt
  /\ length (global_X (snd started)) = 1500%nat
  /\ fst moved = Ok tt
  /\ column_length <$> source_data (snd moved) !! "x" = Some 2000%nat
  /\ column_length <$> source_data (snd moved) !! "colors" = Some 2000%nat
  /\ length (global_X (snd moved)) = 1500%nat
  /\ fst then_algorithm = Ok tt
  /\ column_length <$> source_data (snd then_algorithm) !! "x" = Some 1500%nat
  /\ int (samples_slider_value (snd then_algorithm)) = 2000.
Proof. by vm_compute. Qed.

(** ** Further runs *)

Lemma recolor_period_witness :
  (-120 <= 7 <= 119) /\ (-120 <= -5 <= 119)
  /\ (exists c, @Spectral6 Stub.library !! Z.to_nat (7 mod 6) = Some c
                /\ recolor [7] = Ok [c])
  /\ (7 mod 6 = -5 mod 6 -> @recolor Stub.library [7] = recolor [-5]).
Proof.
  assert (-120 <= 7 <= 119) as H7 by lia.
  assert (-120 <= -5 <= 119) as H5 by lia.
  split; [exact H7 |]. split; [exact H5 |].
  exact (recolor_period (L := Stub.library) 7 (-5) H7 H5).
Defined.

Lemma recolor_outcome_witness :
  match @recolor Stub.library [0; 200; 1] with
  | Ok colors =>
      Forall (fun i => -120 <= i <= 119) [0; 200; 1]
      /\ length colors = length [0; 200; 1]
  | Raise e =>
      e = IndexError /\ Exists (fun i => ~ (-120 <= i <= 119)) [0; 200; 1]
  end.
Proof. exact (recolor_outcome (L := Stub.library) [0; 200; 1]). Defined.

Lemma cluster_count_ignored_witness :
  ("MeanShift" ∈ ["AffinityPropagation"; "MeanShift"; "DBSCAN"])
  /\ clustering (global_X Stub.session) "MeanShift" 2 Stub.session
     = clustering (global_X Stub.session) "MeanShift" 9 Stub.session.
Proof.
  assert ("MeanShift" ∈ ["AffinityPropagation"; "MeanShift"; "DBSCAN"])
    as Hname by (apply (bool_decide_unpack _); by vm_compute).
  split; [exact Hname |].
  exact (cluster_count_ignored (global_X Stub.session) "MeanShift" 2 9
           Stub.session Hname).
Defined.

(** Five points are too few for ten neighbours: 'DBSCAN', which uses no
    graph, fails as every other name does. *)
Lemma clustering_needs_preparation_witness :
  let X := fst (Stub.rand_rows 5 5) in
  let e := LibraryError "Expected n_neighbors <= n_samples" in
  fst (prepare X Stub.session) = Raise e
  /\ forall algorithm n_clusters,
      clustering X algorithm n_clusters Stub.session = (Raise e, Stub.session).
Proof.
  cbv zeta.
  assert (fst (prepare (fst (Stub.rand_rows 5 5)) Stub.session)
          = Raise (LibraryError "Expected n_neighbors <= n_samples")) as Hrun
    by (vm_compute; reflexivity).
  split; [exact Hrun |].
  exact (proj2 (clustering_needs_preparation _ _ _ Hrun)).
Defined.

Lemma plot_shows_global_X_witness :
  let e := clusters_slider_change (4 # 1) in
  let s' := snd (on_change e Stub.session) in
  (forall new, e <> samples_slider_change new)
  /\ fst (on_change e Stub.session) = Ok tt
  /\ source_data s' !! "x" = Some (Floats (column0 (global_X s')))
  /\ source_data s' !! "y" = Some (Floats (column1 (global_X s')))
  /\ exists X, fit_transform X = Ok (global_X s').
Proof.
  cbv zeta.
  assert (forall new : float,
             clusters_slider_change (4 # 1) <> samples_slider_change new)
    as Hevent by (intros new; discriminate).
  assert (fst (on_change (clusters_slider_change (4 # 1)) Stub.session)
          = Ok tt) as Hrun by (vm_compute; reflexivity).
  split; [exact Hevent |]. split; [exact Hrun |].
  exact (plot_shows_global_X _ Stub.session Hevent Hrun).
Defined.

(** 125 clusters on 130 points: the labels reach 124, past the palette. *)
Lemma recolor_failure_after_rebinding_witness :
  let s := Stub.crowded in
  exists Xs y_pred s1,
    clustering (global_X s) (algorithm_select_value s)
      (int (clusters_slider_value s)) s = (Ok (Xs, y_pred), s1)
    /\ recolor y_pred = Raise IndexError
    /\ fst (update_clusters s) = Raise IndexError
    /\ global_X (snd (update_clusters s)) = Xs
    /\ source_data (snd (update_clusters s)) = source_data s
    /\ plot_title (snd (update_clusters s)) = plot_title s.
Proof.
  cbv zeta.
  assert (match
             fst (clustering (global_X Stub.crowded)
                    (algorithm_select_value Stub.crowded)
                    (int (clusters_slider_value Stub.crowded)) Stub.crowded)
           with
           | Ok (_, y_pred) => recolor y_pred = Raise IndexError
           | Raise _ => False
           end) as Hcolors by (vm_compute; reflexivity).
  destruct (clustering (global_X Stub.crowded)
              (algorithm_select_value Stub.crowded)
              (int (clusters_slider_value Stub.crowded)) Stub.crowded)
    as [[[Xs y_pred] | e] s1] eqn:Hrun; [| destruct Hcolors].
  simpl in Hcolors. exists Xs, y_pred, s1.
  split; [reflexivity |]. split; [exact Hcolors |].
  exact (proj2 (recolor_failure_after_rebinding
                  Stub.crowded Xs y_pred s1 IndexError Hrun Hcolors)).
Defined.

(** The sample-count slider at 5: the dataset is generated, then ten
    neighbours cannot be found. *)
Lemma update_dataset_failure_after_rebinding_witness :
  let s := set_samples_slider_value (5 # 1) Stub.session in
  exists X y s0 e s1,
    get_dataset (dataset_select_value s) (int (samples_slider_value s)) s
    = (Ok (X, y), s0)
    /\ clustering X (algorithm_select_value s) (int (clusters_slider_value s))
         (set_global_y y (set_global_X X s0)) = (Raise e, s1)
    /\ fst (update_dataset s) = Raise e
    /\ global_X (snd (update_dataset s)) = X
    /\ global_y (snd (update_dataset s)) = y
    /\ source_data (snd (update_dataset s)) = source_data s
    /\ plot_title (snd (update_dataset s)) = plot_title s.
Proof.
  cbv zeta.
  set (s := set_samples_slider_value (5 # 1) Stub.session).
  assert (match
             get_dataset (dataset_select_value s)
               (int (samples_slider_value s)) s
           with
           | (Ok (X, y), s0) =>
               is_Ok (fst (clustering X (algorithm_select_value s)
                             (int (clusters_slider_value s))
                             (set_global_y y (set_global_X X s0)))) = false
           | (Raise _, _) => False
           end) as Hfails by (vm_compute; reflexivity).
  destruct (get_dataset (dataset_select_value s)
              (int (samples_slider_value s)) s)
    as [[[X y] | e0] s0] eqn:Hdata; [| destruct Hfails].
  destruct (clustering X (algorithm_select_value s)
              (int (clusters_slider_value s))
              (set_global_y y (set_global_X X s0)))
    as [[r | e] s1] eqn:Hrun; [discriminate Hfails |].
  exists X, y, s0, e, s1. split; [reflexivity |]. split; [exact Hrun |].
  exact (update_dataset_failure_after_rebinding s X y s0 e s1 Hdata Hrun).
Defined.

Lemma unknown_algorithm_titled_witness :
  ("OPTICS" ∉ clustering_algorithms)
  /\ (let u := on_change (algorithm_select_change "OPTICS") Stub.session in
      let k :=
        on_change (algorithm_select_change "MiniBatchKMeans") Stub.session in
      fst u = fst k
      /\ global_X (snd u) = global_X (snd k)
      /\ source_data (snd u) = source_data (snd k)
      /\ random_state (snd u) = random_state (snd k)
      /\ match fst u with
         | Ok _ =>
             plot_title (snd u) = Some "OPTICS"
             /\ plot_title (snd k) = Some "MiniBatchKMeans"
             /\ stdout (snd u) = stdout Stub.session ++ [notice]
             /\ stdout (snd k) = stdout Stub.session
         | Raise _ => True
         end).
Proof.
  assert ("OPTICS" ∉ clustering_algorithms) as Hname
    by (apply (bool_decide_unpack _); by vm_compute).
  split; [exact Hname |].
  exact (unknown_algorithm_titled "OPTICS" Stub.session Hname).
Defined.

Lemma columns_same_length_witness :
  let e := dataset_select_change "Noisy Moons" in
  fst (on_change e Stub.session) = Ok tt
  /\ exists xs ys colors,
      source_data (snd (on_change e Stub.session)) !! "x" = Some (Floats xs)
      /\ source_data (snd (on_change e Stub.session)) !! "y"
         = Some (Floats ys)
      /\ source_data (snd (on_change e Stub.session)) !! "colors"
         = Some (Strings colors)
      /\ length xs = length ys
      /\ length ys = length colors.
Proof.
  cbv zeta.
  assert (fst (on_change (dataset_select_change "Noisy Moons") Stub.session)
          = Ok tt) as Hrun by (vm_compute; reflexivity).
  split; [exact Hrun |].
  exact (columns_same_length _ Stub.session Hrun).
Defined.

Lemma slider_fraction_ignored_witness :
  int (5 # 2) = int (2 # 1)
  /\ (let r1 := on_change (clusters_slider_change (5 # 2)) Stub.session in
      on_change (clusters_slider_change (2 # 1)) Stub.session =
      (fst r1, set_clusters_slider_value (2 # 1) (snd r1)))
  /\ (let r1 := on_change (samples_slider_change (5 # 2)) Stub.session in
      on_change (samples_slider_change (2 # 1)) Stub.session =
      (fst r1, set_samples_slider_value (2 # 1) (snd r1))).
Proof.
  assert (int (5 # 2) = int (2 # 1)) as Hint by reflexivity.
  split; [exact Hint |].
  exact (slider_fraction_ignored (5 # 2) (2 # 1) Stub.session Hint).
Defined.
